(** * Product API service (server.js): a shallow embedding and its contract

    The service is an Express application with six routes over one MongoDB
    collection, [shop.products].  Every route handler of [server.js] is
    embedded below as a function from the request and the collection to a
    response and the collection afterwards.

    What is not in [server.js] is kept apart from it:
    - the JavaScript runtime and the BSON library ([Number] on a string,
      [ObjectId.isValid], [new ObjectId], [Date.prototype.toISOString], the
      store's cross-type sort order) are the fields of the class [Platform];
      every theorem on a handler holds for every platform, and
      [Sample.platform], on which the examples run, answers as the runtime
      and the bson library of the driver do;
    - the document store is the module [Mongo]: a list of documents with the
      part of the query language that the handlers use (equality and [$gte]
      filters, inclusion and exclusion projections on top-level field names,
      single-key sort, [$set], [$currentDate], the unique index on [_id]).
      Each call to the store is recorded in the collection's [history], so
      that "no store access" can be stated. A duplicate [_id] is the one
      failure of the store that is modelled, and the one way into the
      [catch] blocks; a lost connection is not.

    Strings are sequences of code units below 256; finite numbers are
    rationals (the handlers do no arithmetic, they only test and compare). *)

From Stdlib Require Import List String Ascii Bool ZArith NArith QArith Lia.
From Stdlib Require Import Permutation Sorted.
Import ListNotations.
#[local] Set Warnings "-register-all".
Close Scope Q_scope.
Local Open Scope string_scope.
Local Open Scope list_scope.

(* ================================================================= *)
(** ** JavaScript values *)

Module Js.

(** A JavaScript number: the IEEE specials and the finite values. *)
Inductive number : Type :=
| NaN
| NegInfinity
| PosInfinity
| Finite (q : Q).

(** The values that travel through the handlers: what [JSON.parse] builds
    from a request body, plus the two BSON types the handlers create
    ([Date] and [ObjectId]). An object keeps its properties in insertion
    order. *)
Inductive value : Type :=
| VUndefined
| VNull
| VBool (b : bool)
| VNumber (n : number)
| VString (s : string)
| VDate (ms : Z)
| VObjectId (oid : N)
| VArray (elems : list value)
| VObject (props : list (string * value)).

Definition object : Type := list (string * value).

(** [o[k]]: the own property [k], [undefined] when there is none. *)
Fixpoint get (k : string) (o : object) : value :=
  match o with
  | [] => VUndefined
  | (k', v) :: o' => if String.eqb k k' then v else get k o'
  end.

(** [o[k] = v]: an existing property keeps its place, a new one goes last. *)
Fixpoint set (k : string) (v : value) (o : object) : object :=
  match o with
  | [] => [(k, v)]
  | (k', v') :: o' =>
      if String.eqb k k' then (k, v) :: o' else (k', v') :: set k v o'
  end.

(** [{ ...a, ...b }] continued: the properties of [b] defined onto [a],
    in the order of [b]. *)
Definition spread (a b : object) : object :=
  fold_left (fun acc kv => set (fst kv) (snd kv) acc) b a.

(** [o[k] = v] on a plain object whose key comes from the request: the
    key [__proto__] reaches the accessor inherited from [Object.prototype]
    and creates no own property; every other key becomes an own property. *)
Definition assign (k : string) (v : value) (o : object) : object :=
  if String.eqb k "__proto__" then o else set k v o.

Definition keys (o : object) : list string := map fst o.

Definition has (k : string) (o : object) : bool :=
  existsb (String.eqb k) (keys o).

Definition isNaN (n : number) : bool :=
  match n with NaN => true | _ => false end.

Definition is_zero (n : number) : bool :=
  match n with Finite q => Qeq_bool q 0%Q | _ => false end.

(** [a <= b] on numbers; false as soon as one side is [NaN]. *)
Definition number_leb (a b : number) : bool :=
  match a, b with
  | NaN, _ | _, NaN => false
  | NegInfinity, _ => true
  | _, PosInfinity => true
  | Finite x, Finite y => Qle_bool x y
  | _, _ => false
  end.

(** ToBoolean: [!v] is [negb (truthy v)]. *)
Definition truthy (v : value) : bool :=
  match v with
  | VUndefined | VNull => false
  | VBool b => b
  | VNumber n => negb (isNaN n || is_zero n)
  | VString s => negb (String.eqb s "")
  | VDate _ | VObjectId _ | VArray _ | VObject _ => true
  end.

(** [typeof v === "number"]. *)
Definition typeof_number (v : value) : bool :=
  match v with VNumber _ => true | _ => false end.

(** [v !== undefined]. *)
Definition defined (v : value) : bool :=
  match v with VUndefined => false | _ => true end.

(** *** Strings: [split(",")], [trim], [filter(Boolean)], [includes] *)

(** WhiteSpace and LineTerminator code units below 256. *)
Definition is_space (c : ascii) : bool :=
  let n := nat_of_ascii c in
  ((9 <=? n) && (n <=? 13) || (n =? 32) || (n =? 160))%nat.

(** [s.split(",")]: never empty, [""] splits into [[""]]. *)
Fixpoint split_comma (s : string) : list string :=
  match s with
  | EmptyString => [EmptyString]
  | String c r =>
      if Ascii.eqb c "," then EmptyString :: split_comma r
      else match split_comma r with
           | h :: t => String c h :: t
           | [] => [String c EmptyString]
           end
  end.

Fixpoint trimStart (s : string) : string :=
  match s with
  | EmptyString => EmptyString
  | String c r => if is_space c then trimStart r else s
  end.

Fixpoint trimEnd (s : string) : string :=
  match s with
  | EmptyString => EmptyString
  | String c r =>
      match trimEnd r with
      | EmptyString => if is_space c then EmptyString else String c EmptyString
      | r' => String c r'
      end
  end.

Definition trim (s : string) : string := trimEnd (trimStart s).

(** [Boolean] on a string. *)
Definition nonempty (s : string) : bool := negb (String.eqb s "").

Definition includes (x : string) (l : list string) : bool :=
  existsb (String.eqb x) l.

End Js.

Import Js.

(** The parts of the runtime and of the BSON library that the handlers call
    and [server.js] does not define. *)
Class Platform : Type := {
  (** [ObjectId.isValid(id)] on a string *)
  ObjectId_isValid : string -> bool;
  (** [new ObjectId(id)] on a string that [ObjectId.isValid] accepts *)
  ObjectId_new : string -> N;
  (** [Number(s)] on a string *)
  Number_of_string : string -> number;
  (** [new Date(ms).toISOString()] *)
  Date_toISOString : Z -> string;
  (** the store's order on the values of a sort key *)
  bson_leb : value -> value -> bool
}.

(* ================================================================= *)
(** ** The document store *)

Module Mongo.

(** The filter documents that the list handler builds:
    [{ category: c }], [{ price: { $gte: m } }], both or neither. *)
Record Filter : Type := {
  filter_category : option string;
  filter_price_gte : option number
}.

(** A sort document with one key, [{ key: direction }]. *)
Definition Sort : Type := (string * Z)%type.

(** A cursor under construction: nothing reaches the store before
    [toArray]. *)
Record Cursor : Type := {
  cursor_filter : Filter;
  cursor_projection : option object;
  cursor_sort : option Sort
}.

Inductive Call : Type :=
| CallFind (c : Cursor)
| CallFindOne (oid : N)
| CallInsertOne (doc : object)
| CallFindOneAndUpdate (oid : N) (updates : object)
| CallDeleteOne (oid : N).

(** The collection: its documents in natural order, and the calls it has
    received, latest first. *)
Record Collection : Type := {
  docs : list object;
  history : list Call
}.

Definition called (c : Call) (coll : Collection) : Collection :=
  {| docs := docs coll; history := c :: history coll |}.

(** What a call that can fail gives back. *)
Inductive result (A : Type) : Type :=
| Ok (a : A)
| Throw.
Arguments Ok {A} a.
Arguments Throw {A}.

(** [{ field: s }] against a stored value: equal to it, or an array that
    holds it. *)
Definition eq_match (s : string) (v : value) : bool :=
  let is_s e := match e with VString t => String.eqb s t | _ => false end in
  match v with
  | VArray l => existsb is_s l
  | _ => is_s v
  end.

(** [{ field: { $gte: m } }] against a stored value: a number at least [m],
    or an array that holds one. A missing field, a value of another type
    and [NaN] do not match. *)
Definition gte_match (m : number) (v : value) : bool :=
  let is_ge e := match e with VNumber p => number_leb m p | _ => false end in
  match v with
  | VArray l => existsb is_ge l
  | _ => is_ge v
  end.

Definition matches (f : Filter) (d : object) : bool :=
  match filter_category f with
  | Some c => eq_match c (get "category" d)
  | None => true
  end
  &&
  match filter_price_gte f with
  | Some m => gte_match m (get "price" d)
  | None => true
  end.

(** A projection document over top-level field names. With at least one
    field set to a truthy value it is an inclusion: the fields set to a
    truthy value are kept, and [_id] with them unless it is set to a falsy
    one. Otherwise it is an exclusion of the fields it names. *)
Definition apply_projection (p : object) (d : object) : object :=
  if existsb (fun kv => truthy (snd kv)) p then
    filter (fun kv =>
              if String.eqb (fst kv) "_id"
              then negb (has "_id" p) || truthy (get "_id" p)
              else truthy (get (fst kv) p)) d
  else
    filter (fun kv => negb (has (fst kv) p)) d.

Definition id_is (oid : N) (d : object) : bool :=
  match get "_id" d with
  | VObjectId o => N.eqb o oid
  | _ => false
  end.

Section Ordered.
Context {P : Platform}.

Definition sort_leb (s : Sort) (a b : object) : bool :=
  if (0 <=? snd s)%Z
  then bson_leb (get (fst s) a) (get (fst s) b)
  else bson_leb (get (fst s) b) (get (fst s) a).

Fixpoint insert_sorted (s : Sort) (d : object) (l : list object)
  : list object :=
  match l with
  | [] => [d]
  | e :: l' =>
      if sort_leb s d e then d :: l else e :: insert_sorted s d l'
  end.

Definition sort_docs (s : Sort) (l : list object) : list object :=
  fold_right (insert_sorted s) [] l.

(** [cursor.toArray()]: filter, then sort on the stored documents, then
    project. *)
Definition run_cursor (c : Cursor) (l : list object) : list object :=
  let found := filter (matches (cursor_filter c)) l in
  let sorted := match cursor_sort c with
                | Some s => sort_docs s found
                | None => found
                end in
  match cursor_projection c with
  | Some p => map (apply_projection p) sorted
  | None => sorted
  end.

Definition toArray (c : Cursor) (coll : Collection)
  : list object * Collection :=
  (run_cursor c (docs coll), called (CallFind c) coll).
End Ordered.

Definition find (f : Filter) : Cursor :=
  {| cursor_filter := f; cursor_projection := None; cursor_sort := None |}.

Definition project (p : object) (c : Cursor) : Cursor :=
  {| cursor_filter := cursor_filter c;
     cursor_projection := Some p;
     cursor_sort := cursor_sort c |}.

Definition sort (s : Sort) (c : Cursor) : Cursor :=
  {| cursor_filter := cursor_filter c;
     cursor_projection := cursor_projection c;
     cursor_sort := Some s |}.

(** [findOne({ _id: oid })]: the document or [null]. *)
Definition findOne (oid : N) (coll : Collection)
  : option object * Collection :=
  (List.find (id_is oid) (docs coll), called (CallFindOne oid) coll).

(** [insertOne(doc)] for a document without [_id]: the driver gives it the
    identifier [fresh]; the unique index on [_id] refuses a duplicate. *)
Definition insertOne (fresh : N) (doc : object) (coll : Collection)
  : result N * Collection :=
  let coll' := called (CallInsertOne doc) coll in
  if existsb (id_is fresh) (docs coll) then (Throw, coll')
  else (Ok fresh,
        {| docs := docs coll ++ [("_id", VObjectId fresh) :: doc];
           history := history coll' |}).

(** [{ $set: updates, $currentDate: { updatedAt: true } }] on one
    document. *)
Definition apply_update (updates : object) (now : Z) (d : object) : object :=
  set "updatedAt" (VDate now) (spread d updates).

Fixpoint update_first (oid : N) (updates : object) (now : Z)
  (l : list object) : option object * list object :=
  match l with
  | [] => (None, [])
  | d :: l' =>
      if id_is oid d then
        let d' := apply_update updates now d in (Some d', d' :: l')
      else
        let (r, l'') := update_first oid updates now l' in (r, d :: l'')
  end.

(** [findOneAndUpdate({ _id: oid }, ..., { returnDocument: "after" })]:
    the [value] of the result, the document after the update or [null]. *)
Definition findOneAndUpdate (oid : N) (updates : object) (now : Z)
  (coll : Collection) : option object * Collection :=
  let (r, l) := update_first oid updates now (docs coll) in
  (r, {| docs := l;
         history := CallFindOneAndUpdate oid updates :: history coll |}).

Fixpoint delete_first (oid : N) (l : list object) : nat * list object :=
  match l with
  | [] => (0, [])
  | d :: l' =>
      if id_is oid d then (1, l')
      else let (n, l'') := delete_first oid l' in (n, d :: l'')
  end.

(** [deleteOne({ _id: oid })]: the [deletedCount]. *)
Definition deleteOne (oid : N) (coll : Collection) : nat * Collection :=
  let (n, l) := delete_first oid (docs coll) in
  (n, {| docs := l; history := CallDeleteOne oid :: history coll |}).

End Mongo.

(* ================================================================= *)
(** ** The routes of server.js *)

Import Mongo.

(** What a response carries: [res.status(n).json(v)]; [res.json(v)] alone
    answers 200. *)
Record Response : Type := {
  status : nat;
  body : value
}.

Definition json (v : value) : Response := {| status := 200; body := v |}.

Definition status_json (n : nat) (v : value) : Response :=
  {| status := n; body := v |}.

Definition error (msg : string) : value := VObject [("error", VString msg)].

(** What a request reads from outside the process: the clock of the
    server at [new Date()], the clock of the store at [$currentDate], and
    the identifier that the driver generates for an insertion. *)
Record Env : Type := {
  now : Z;
  store_now : Z;
  fresh_id : N
}.

(** [req.query] of the list route; [None] is [undefined]. *)
Record Query : Type := {
  query_category : option string;
  query_minPrice : option string;
  query_sort : option string;
  query_fields : option string
}.

(** The requests the application routes; [req.body] is the object that the
    JSON middleware parsed. *)
Inductive Request : Type :=
| GET_root
| GET_products (query : Query)
| GET_product (id : string)
| POST_products (body : object)
| PUT_product (id : string) (body : object)
| DELETE_product (id : string).

Definition allowed : list string := ["name"; "category"; "price"; "stock"].

Definition one : value := VNumber (Finite 1).
Definition zero : value := VNumber (Finite 0).

Section Server.
Context {P : Platform}.
Variable env : Env.

(** [app.get("/")], lines 30-32. *)
Definition get_root : Response :=
  json (VObject [("status", VString "ok");
                 ("service", VString "practice11");
                 ("time", VString (Date_toISOString (now env)))]).

(** [ensureDB], lines 34-39: [productsCollection] is [undefined] until
    [connectDB] has assigned it. *)
Definition ensureDB (next : Collection -> Response * Collection)
  (productsCollection : option Collection)
  : Response * option Collection :=
  match productsCollection with
  | None => (status_json 503 (error "Database not ready yet"), None)
  | Some coll => let (res, coll') := next coll in (res, Some coll')
  end.

(** The filter of the list route, lines 47-56: the response 400 or the
    filter document. *)
Definition build_filter (q : Query) : Response + Filter :=
  let category :=
    match query_category q with
    | Some c => if nonempty c then Some c else None
    | None => None
    end in
  match query_minPrice q with
  | Some minPrice =>
      let min := Number_of_string minPrice in
      if isNaN min
      then inl (status_json 400 (error "minPrice must be a number"))
      else inr {| filter_category := category;
                  filter_price_gte := Some min |}
  | None => inr {| filter_category := category;
                   filter_price_gte := None |}
  end.

(** [selectedFields], lines 61-64. *)
Definition selectedFields (fields : string) : list string :=
  filter nonempty (map trim (split_comma fields)).

(** The projection of the list route, lines 58-69. *)
Definition build_projection (q : Query) : option object :=
  match query_fields q with
  | Some fields =>
      if nonempty fields then
        let selected := selectedFields fields in
        let projection :=
          fold_left (fun p f => assign f one p) selected [] in
        Some (if negb (includes "_id" selected)
              then assign "_id" zero projection
              else projection)
      else None
  | None => None
  end.

(** The sort of the list route, lines 72-73. *)
Definition build_sort (q : Query) : option Sort :=
  match query_sort q with
  | Some s => if String.eqb s "price" then Some ("price", 1%Z) else None
  | None => None
  end.

(** [app.get("/api/products")], lines 42-85. *)
Definition get_products (q : Query) (coll : Collection)
  : Response * Collection :=
  match build_filter q with
  | inl res => (res, coll)
  | inr filter =>
      let cursor := find filter in
      let cursor := match build_projection q with
                    | Some projection => project projection cursor
                    | None => cursor
                    end in
      let cursor := match build_sort q with
                    | Some sortObj => sort sortObj cursor
                    | None => cursor
                    end in
      let (result, coll') := toArray cursor coll in
      (json (VArray (map VObject result)), coll')
  end.

(** [app.get("/api/products/:id")], lines 88-104. *)
Definition get_product (id : string) (coll : Collection)
  : Response * Collection :=
  if negb (ObjectId_isValid id)
  then (status_json 400 (error "Invalid id"), coll)
  else
    let (product, coll') := findOne (ObjectId_new id) coll in
    match product with
    | None => (status_json 404 (error "Not found"), coll')
    | Some product => (json (VObject product), coll')
    end.

(** [app.post("/api/products")], lines 107-132. *)
Definition post_products (body : object) (coll : Collection)
  : Response * Collection :=
  let name := get "name" body in
  let category := get "category" body in
  let price := get "price" body in
  let stock := get "stock" body in
  if negb (truthy name) || negb (truthy category)
     || negb (typeof_number price)
  then
    (status_json 400
       (VObject
          [("error", VString "Validation error");
           ("details",
            VString "name and category required; price must be a number")]),
     coll)
  else
    let doc := [("name", name);
                ("category", category);
                ("price", price);
                ("stock", if typeof_number stock then stock else zero);
                ("createdAt", VDate (now env))] in
    match insertOne (fresh_id env) doc coll with
    | (Ok insertedId, coll') =>
        (status_json 201
           (VObject
              (spread [("_id", VObjectId insertedId)]
                      (doc ++ [("_id", VObjectId insertedId)]))),
         coll')
    | (Throw, coll') => (status_json 500 (error "Server error"), coll')
    end.

(** [updates], lines 144-150. *)
Definition collect_updates (body : object) : object :=
  fold_left
    (fun updates key =>
       if defined (get key body) then set key (get key body) updates
       else updates)
    allowed [].

(** [app.put("/api/products/:id")], lines 135-175. *)
Definition put_product (id : string) (body : object) (coll : Collection)
  : Response * Collection :=
  if negb (ObjectId_isValid id)
  then (status_json 400 (error "Invalid id"), coll)
  else
    let updates := collect_updates body in
    if Nat.eqb (List.length (keys updates)) 0
    then (status_json 400 (error "No valid fields to update"), coll)
    else if defined (get "price" updates)
            && negb (typeof_number (get "price" updates))
    then (status_json 400 (error "price must be a number"), coll)
    else if defined (get "stock" updates)
            && negb (typeof_number (get "stock" updates))
    then (status_json 400 (error "stock must be a number"), coll)
    else
      let (value, coll') :=
        findOneAndUpdate (ObjectId_new id) updates (store_now env) coll in
      match value with
      | None => (status_json 404 (error "Not found"), coll')
      | Some value => (json (VObject value), coll')
      end.

(** [app.delete("/api/products/:id")], lines 178-194. *)
Definition delete_product (id : string) (coll : Collection)
  : Response * Collection :=
  if negb (ObjectId_isValid id)
  then (status_json 400 (error "Invalid id"), coll)
  else
    let (deletedCount, coll') := deleteOne (ObjectId_new id) coll in
    if Nat.eqb deletedCount 0
    then (status_json 404 (error "Not found"), coll')
    else (json (VObject [("deleted", VBool true); ("id", VString id)]),
          coll').

(** The application: the route table. Only ["/"] is mounted without
    [ensureDB]. *)
Definition app (req : Request) (productsCollection : option Collection)
  : Response * option Collection :=
  match req with
  | GET_root => (get_root, productsCollection)
  | GET_products q => ensureDB (get_products q) productsCollection
  | GET_product id => ensureDB (get_product id) productsCollection
  | POST_products b => ensureDB (post_products b) productsCollection
  | PUT_product id b => ensureDB (put_product id b) productsCollection
  | DELETE_product id => ensureDB (delete_product id) productsCollection
  end.

End Server.

(* ================================================================= *)
(** ** A platform to run the handlers on *)

Module Sample.

Definition hex_value (c : ascii) : option N :=
  let n := N_of_ascii c in
  if ((48 <=? n) && (n <=? 57))%N then Some (n - 48)%N
  else if ((97 <=? n) && (n <=? 102))%N then Some (n - 87)%N
  else if ((65 <=? n) && (n <=? 70))%N then Some (n - 55)%N
  else None.

Fixpoint hex_number (acc : N) (s : string) : option N :=
  match s with
  | EmptyString => Some acc
  | String c r =>
      match hex_value c with
      | Some d => hex_number (16 * acc + d)%N r
      | None => None
      end
  end.

Fixpoint bytes_number (acc : N) (s : string) : N :=
  match s with
  | EmptyString => acc
  | String c r => bytes_number (256 * acc + N_of_ascii c)%N r
  end.

Definition is_ascii (c : ascii) : bool := (N_of_ascii c <? 128)%N.

(** [ObjectId.isValid] on a string, as the bson library of the driver
    that answers [findOneAndUpdate] with [result.value] has it: 24
    hexadecimal digits, or 12 characters, which are then the 12 bytes
    themselves. The releases of that library do not agree on 12 characters
    of which one is outside ASCII; such a string is refused here. *)
Definition isValid (s : string) : bool :=
  (Nat.eqb (String.length s) 12 && forallb is_ascii (list_ascii_of_string s))
  || (Nat.eqb (String.length s) 24
      && match hex_number 0 s with Some _ => true | None => false end).

(** [new ObjectId(s)]: the 12 bytes as one number. *)
Definition objectId (s : string) : N :=
  if Nat.eqb (String.length s) 12 then bytes_number 0 s
  else match hex_number 0 s with Some n => n | None => 0%N end.

(** The decimal digits at the head of [s]: their value, how many there
    are, and what follows them. *)
Fixpoint digits (acc : N) (count : nat) (s : string) : N * nat * string :=
  match s with
  | EmptyString => (acc, count, s)
  | String c r =>
      let n := N_of_ascii c in
      if ((48 <=? n) && (n <=? 57))%N
      then digits (10 * acc + (n - 48))%N (S count) r
      else (acc, count, s)
  end.

(** A string made of digits of the base, one at least. *)
Fixpoint radix_digits (base acc : N) (count : nat) (s : string) : option N :=
  match s with
  | EmptyString => if Nat.eqb count 0 then None else Some acc
  | String c r =>
      match hex_value c with
      | Some d =>
          if (d <? base)%N
          then radix_digits base (base * acc + d)%N (S count) r
          else None
      | None => None
      end
  end.

(** [n / d] rounded to the nearest integer, ties to even; [0 < d]. *)
Definition round_half_even (n d : Z) : Z :=
  let q := (n / d)%Z in
  let r := (n mod d)%Z in
  if (2 * r <? d)%Z then q
  else if (d <? 2 * r)%Z then (q + 1)%Z
  else if Z.even q then q else (q + 1)%Z.

(** The double nearest to a rational that is not negative: 53 bits of
    mantissa, exponents from -1074, [Infinity] from 2^1024. *)
Definition to_double (q : Q) : number :=
  let n := Qnum q in
  let d := Zpos (Qden q) in
  if (n <=? 0)%Z then Finite 0%Q
  else
    let k := (Z.log2 n - Z.log2 d)%Z in
    let above := if (0 <=? k)%Z then (d * 2 ^ k <=? n)%Z
                 else (d <=? n * 2 ^ (- k))%Z in
    let e := Z.max ((if above then k else k - 1) - 52) (-1074) in
    if (0 <=? e)%Z then
      let m := round_half_even n (d * 2 ^ e) in
      if (2 ^ 1024 <=? m * 2 ^ e)%Z then PosInfinity
      else Finite (inject_Z (m * 2 ^ e))
    else
      let m := round_half_even (n * 2 ^ (- e)) d in
      Finite (Qred (Qmake m (Z.to_pos (2 ^ (- e))))).

Definition negate (neg : bool) (n : number) : number :=
  match n with
  | Finite q => Finite (if neg then Qopp q else q)
  | PosInfinity => if neg then NegInfinity else PosInfinity
  | NegInfinity => if neg then PosInfinity else NegInfinity
  | NaN => NaN
  end.

(** [mantissa * 10 ^ exponent], as a rational. *)
Definition scale10 (mantissa : N) (exponent : Z) : Q :=
  if (0 <=? exponent)%Z
  then inject_Z (Z.of_N mantissa * 10 ^ exponent)
  else Qmake (Z.of_N mantissa) (Z.to_pos (10 ^ (- exponent))).

(** The exponent part that ends a decimal literal: nothing, or [e] or [E],
    an optional sign and digits to the end of the string. *)
Definition exponent_part (s : string) : option Z :=
  match s with
  | EmptyString => Some 0%Z
  | String c r =>
      if Ascii.eqb c "e" || Ascii.eqb c "E" then
        let '(neg, r') :=
          match r with
          | String "-" x => (true, x)
          | String "+" x => (false, x)
          | _ => (false, r)
          end in
        let '(x, nx, rest) := digits 0 0 r' in
        if negb (Nat.eqb nx 0) && String.eqb rest ""
        then Some (if neg then (- Z.of_N x)%Z else Z.of_N x)
        else None
      else None
  end.

(** An unsigned decimal literal: digits, an optional point and digits,
    one digit at least, and an optional exponent part. *)
Definition decimal_literal (u : string) : option Q :=
  let '(i, ni, r1) := digits 0 0 u in
  let '(f, nf, r2) :=
    match r1 with
    | String "." r => digits i 0 r
    | _ => (i, 0%nat, r1)
    end in
  if Nat.eqb (ni + nf) 0 then None
  else match exponent_part r2 with
       | Some x => Some (scale10 f (x - Z.of_nat nf))
       | None => None
       end.

(** [Number] on a string: white space trimmed; blank is 0; a binary,
    octal or hexadecimal integer after [0b], [0o], [0x]; or an optional
    sign before [Infinity] or a decimal literal; anything else is [NaN].
    The value is rounded to a double. *)
Definition number_of_string (s : string) : number :=
  let t := trim s in
  let radix base r :=
    match radix_digits base 0 0 r with
    | Some n => to_double (inject_Z (Z.of_N n))
    | None => NaN
    end in
  match t with
  | EmptyString => Finite 0%Q
  | String "0" (String "x" r) | String "0" (String "X" r) => radix 16%N r
  | String "0" (String "o" r) | String "0" (String "O" r) => radix 8%N r
  | String "0" (String "b" r) | String "0" (String "B" r) => radix 2%N r
  | _ =>
      let '(neg, u) :=
        match t with
        | String "-" r => (true, r)
        | String "+" r => (false, r)
        | _ => (false, t)
        end in
      if String.eqb u "Infinity" then negate neg PosInfinity
      else match decimal_literal u with
           | Some q => negate neg (to_double q)
           | None => NaN
           end
  end.

(** Numbers in increasing order, other values where they are. *)
Definition leb (a b : value) : bool :=
  match a, b with
  | VNumber x, VNumber y => number_leb x y
  | _, _ => true
  end.

(** The last [width] decimal digits of [n]. *)
Fixpoint decimal (width : nat) (n : N) (acc : string) : string :=
  match width with
  | O => acc
  | S width' =>
      decimal width' (n / 10)%N (String (ascii_of_N (48 + n mod 10)) acc)
  end.

(** The civil date of a day count from 1970-01-01, in the proleptic
    Gregorian calendar. *)
Definition civil_from_days (days : Z) : Z * Z * Z :=
  let z := (days + 719468)%Z in
  let era := (z / 146097)%Z in
  let doe := (z - era * 146097)%Z in
  let yoe := ((doe - doe / 1460 + doe / 36524 - doe / 146096) / 365)%Z in
  let doy := (doe - (365 * yoe + yoe / 4 - yoe / 100))%Z in
  let mp := ((5 * doy + 2) / 153)%Z in
  let d := (doy - (153 * mp + 2) / 5 + 1)%Z in
  let m := (if mp <? 10 then mp + 3 else mp - 9)%Z in
  let y := (yoe + era * 400 + (if m <=? 2 then 1 else 0))%Z in
  (y, m, d).

(** [YYYY-MM-DDTHH:mm:ss.sssZ], for the years 0000 to 9999. *)
Definition toISOString (ms : Z) : string :=
  let '(y, m, d) := civil_from_days (ms / 86400000)%Z in
  let t := (ms mod 86400000)%Z in
  let field w x rest := decimal w (Z.to_N x) rest in
  field 4%nat y
    (String "-" (field 2%nat m
    (String "-" (field 2%nat d
    (String "T" (field 2%nat (t / 3600000)%Z
    (String ":" (field 2%nat (t / 60000 mod 60)%Z
    (String ":" (field 2%nat (t / 1000 mod 60)%Z
    (String "." (field 3%nat (t mod 1000)%Z "Z")))))))))))).

#[global] Instance platform : Platform := {|
  ObjectId_isValid := isValid;
  ObjectId_new := objectId;
  Number_of_string := number_of_string;
  Date_toISOString := toISOString;
  bson_leb := leb
|}.

Definition env : Env := {| now := 1700000000000; store_now := 1700000000500;
                           fresh_id := 4096 |}.

Definition pen_id : string := "000000000000000000000100".

(** The record that [POST {name:"Pen",category:"Stationery",price:1.5}]
    leaves in the store. *)
Definition pen : object :=
  [("_id", VObjectId 256);
   ("name", VString "Pen");
   ("category", VString "Stationery");
   ("price", VNumber (Finite (3 # 2)));
   ("stock", zero);
   ("createdAt", VDate 1600000000000)].

Definition ink : object :=
  [("_id", VObjectId 257);
   ("name", VString "Ink");
   ("category", VString "Stationery");
   ("price", VNumber (Finite (12 # 1)));
   ("stock", VNumber (Finite (4 # 1)));
   ("createdAt", VDate 1600000000001)].

Definition shop : Collection := {| docs := [pen; ink]; history := [] |}.

End Sample.

(* ================================================================= *)
(** ** The vocabulary of the contract *)

(** The document that a create request builds from the body [b], and the
    record that it stores and returns. *)
Definition new_product (env : Env) (b : object) : object :=
  [("name", get "name" b);
   ("category", get "category" b);
   ("price", get "price" b);
   ("stock", if typeof_number (get "stock" b) then get "stock" b else zero);
   ("createdAt", VDate (now env))].

Definition created (env : Env) (b : object) : object :=
  ("_id", VObjectId (fresh_id env)) :: new_product env b.

(** What the field [k] of a record holds after an update with body [b]:
    the store's time under [updatedAt], the body's value under an allowed
    key that the body defines, and what the record [d] held elsewhere. *)
Definition field_after_update (b : object) (now : Z) (d : object)
  (k : string) : value :=
  if String.eqb k "updatedAt" then VDate now
  else if includes k allowed && defined (get k b) then get k b
  else get k d.

(** The cursor that the list route runs for the query [q] once its filter
    is [f]. *)
Definition list_cursor {P : Platform} (q : Query) (f : Filter) : Cursor :=
  {| cursor_filter := f;
     cursor_projection := build_projection q;
     cursor_sort := build_sort q |}.

(** A name that the store reads as one top-level field: no path separator,
    no operator prefix, and not the accessor key that [assign] drops. *)
Definition attribute_name (f : string) : bool :=
  negb (String.eqb f "__proto__")
  && negb (String.prefix "$" f)
  && negb (existsb (Ascii.eqb ".") (list_ascii_of_string f)).

(** *** Sentences of the specification that the code does not follow, as
    they are stated *)

(** On [stock]: a create or update request whose [stock] is defined and
    is not a number answers 400 and leaves the collection as it was. *)
Definition stock_is_validated_everywhere : Prop :=
  forall (P : Platform) (env : Env) (req : Request) (b : object)
         (coll : Collection),
    (req = POST_products b \/ exists id, req = PUT_product id b) ->
    defined (get "stock" b) = true ->
    typeof_number (get "stock" b) = false ->
    exists details,
      app env req (Some coll) = (status_json 400 details, Some coll).

(** On [fields]: when it selects names, attribute names all, every
    returned object has the selected names for keys, all of them and no
    other. *)
Definition fields_are_exact : Prop :=
  forall (P : Platform) (env : Env) (q : Query) (fields : string)
         (coll : Collection) (rs : list object) (coll' : Collection),
    query_fields q = Some fields ->
    selectedFields fields <> [] ->
    forallb attribute_name (selectedFields fields) = true ->
    app env (GET_products q) (Some coll)
    = (json (VArray (map VObject rs)), Some coll') ->
    forall r k, In r rs -> has k r = includes k (selectedFields fields).

(** On a blank [fields]: when [fields] is in the query and no name is
    left after splitting and trimming, no returned object has an [_id]. *)
Definition blank_fields_drop_id : Prop :=
  forall (P : Platform) (env : Env) (q : Query) (fields : string)
         (coll : Collection) (rs : list object) (coll' : Collection),
    query_fields q = Some fields ->
    selectedFields fields = [] ->
    app env (GET_products q) (Some coll)
    = (json (VArray (map VObject rs)), Some coll') ->
    forall r, In r rs -> has "_id" r = false.

(** The specification writes an identifier as 24 hexadecimal digits. *)
Definition hex24 (s : string) : bool :=
  Nat.eqb (String.length s) 24
  && forallb (fun c => match Sample.hex_value c with
                       | Some _ => true
                       | None => false
                       end) (list_ascii_of_string s).

(** On the identifier: with the collection set, a get-by-id, update or
    delete request whose identifier is not written as 24 hexadecimal
    digits answers 400 and leaves the collection as it was. *)
Definition malformed_ids_refused : Prop :=
  forall (env : Env) (id : string) (b : object) (coll : Collection),
    hex24 id = false ->
    let invalid := (status_json 400 (error "Invalid id"), Some coll) in
    @app Sample.platform env (GET_product id) (Some coll) = invalid /\
    @app Sample.platform env (PUT_product id b) (Some coll) = invalid /\
    @app Sample.platform env (DELETE_product id) (Some coll) = invalid.

(** A string that writes a number holds a digit at least, or spells
    [Infinity]. *)
Definition writes_number (s : string) : bool :=
  existsb (fun c => (48 <=? N_of_ascii c)%N && (N_of_ascii c <=? 57)%N)
    (list_ascii_of_string s)
  || String.eqb (trim s) "Infinity"
  || String.eqb (trim s) "+Infinity"
  || String.eqb (trim s) "-Infinity".

(** On [minPrice]: with the collection set, a list request whose
    [minPrice] is a string that writes no number answers 400 and leaves
    the collection as it was. *)
Definition non_numbers_refused : Prop :=
  forall (env : Env) (q : Query) (s : string) (coll : Collection),
    query_minPrice q = Some s ->
    writes_number s = false ->
    @app Sample.platform env (GET_products q) (Some coll)
    = (status_json 400 (error "minPrice must be a number"), Some coll).

Ltac case_key k s :=
  destruct (String.eqb_spec k s) as [->|?]; simpl; try reflexivity.

(* ================================================================= *)
(** ** Requests in sequence, and the life of the process *)

(** The requests that the application answers one after the other, each
    with what it reads from outside. A handler awaits one call to the
    store and nothing else, so handlers that overlap in time act on the
    collection in the order of their calls. *)
Fixpoint serve {P : Platform} (reqs : list (Env * Request))
  (productsCollection : option Collection)
  : list Response * option Collection :=
  match reqs with
  | [] => ([], productsCollection)
  | (env, req) :: rest =>
      let (res, pc) := app env req productsCollection in
      let (ress, pc') := serve rest pc in
      (res :: ress, pc')
  end.

(** [process.env.PORT || 3000], line 8: the variable when it is set and
    not empty. *)
Inductive Port : Type :=
| PortFromEnv (s : string)
| PortDefault (n : nat).

Definition PORT (env_PORT : option string) : Port :=
  match env_PORT with
  | Some s => if nonempty s then PortFromEnv s else PortDefault 3000
  | None => PortDefault 3000
  end.

(** The process after start-up: gone with an exit code, or listening with
    the module variable [productsCollection]. *)
Inductive Process : Type :=
| Exited (code : nat)
| Listening (port : Port) (productsCollection : option Collection).

(** Lines 10-14 and 196-203. [connect] stands for [connectDB] up to
    [db.collection("products")]: the collection, or [None] when the client
    cannot be built or cannot connect; [listen] tells whether
    [app.listen(PORT)] succeeds. *)
Definition main (env_PORT env_MONGO_URI : option string)
  (connect : string -> option Collection) (listen : Port -> bool)
  : Process :=
  match env_MONGO_URI with
  | None => Exited 1
  | Some MONGO_URI =>
      if negb (nonempty MONGO_URI) then Exited 1
      else
        match connect MONGO_URI with
        | None => Exited 1
        | Some coll =>
            if listen (PORT env_PORT)
            then Listening (PORT env_PORT) (Some coll)
            else Exited 1
        end
  end.

(** The requests a process answers: none once it has exited. *)
Definition serve_process {P : Platform} (reqs : list (Env * Request))
  (p : Process) : list Response :=
  match p with
  | Exited _ => []
  | Listening _ productsCollection => fst (serve reqs productsCollection)
  end.

(* ================================================================= *)
(** ** More vocabulary *)

(** The identifiers of a list of records. *)
Definition ids (l : list object) : list value := map (get "_id") l.

(** The shape that create gives a record and that update keeps: an
    [ObjectId] for [_id], numbers for [price] and [stock], a date for
    [createdAt]. *)
Definition product_shape (d : object) : bool :=
  match get "_id" d with VObjectId _ => true | _ => false end
  && typeof_number (get "price" d)
  && typeof_number (get "stock" d)
  && match get "createdAt" d with VDate _ => true | _ => false end.

(** A collection as the routes keep it: every record has the shape of a
    product, and no two records carry the same [_id]. *)
Definition well_kept (coll : Collection) : Prop :=
  forallb product_shape (docs coll) = true /\ NoDup (ids (docs coll)).

(** The routes that only read. *)
Definition reads (req : Request) : bool :=
  match req with
  | GET_root | GET_products _ | GET_product _ => true
  | POST_products _ | PUT_product _ _ | DELETE_product _ => false
  end.

(** What the validation of update lets through, read on the body. *)
Definition some_allowed_field (b : object) : bool :=
  existsb (fun k => defined (get k b)) allowed.

Definition number_or_absent (v : value) : bool :=
  negb (defined v) || typeof_number v.

(** The first check of update that fails, with its message, in the order
    of lines 139-161. *)
Definition update_error {P : Platform} (id : string) (b : object)
  : option string :=
  if negb (ObjectId_isValid id) then Some "Invalid id"
  else if negb (some_allowed_field b) then Some "No valid fields to update"
  else if negb (number_or_absent (get "price" b))
  then Some "price must be a number"
  else if negb (number_or_absent (get "stock" b))
  then Some "stock must be a number"
  else None.

(** A record as the list route returns it for the query [q]. *)
Definition view {P : Platform} (q : Query) (d : object) : object :=
  match build_projection q with
  | Some p => apply_projection p d
  | None => d
  end.

(** The query without the parameters that the list route passes over: an
    empty [category], an empty [fields], a [sort] that is not ["price"]. *)
Definition effective (q : Query) : Query :=
  let drop_empty o :=
    match o with
    | Some s => if nonempty s then Some s else None
    | None => None
    end in
  {| query_category := drop_empty (query_category q);
     query_minPrice := query_minPrice q;
     query_sort := match query_sort q with
                   | Some s => if String.eqb s "price" then Some s else None
                   | None => None
                   end;
     query_fields := drop_empty (query_fields q) |}.

(** A string with no white space at its head. *)
Definition starts_clean (s : string) : bool :=
  match s with
  | EmptyString => true
  | String c _ => negb (is_space c)
  end.

(** *** A platform whose sort order is total *)

(** The rank of a value in the comparison order of BSON types. *)
Definition bson_rank (v : value) : nat :=
  match v with
  | VUndefined | VNull => 0
  | VNumber _ => 1
  | VString _ => 2
  | VObject _ => 3
  | VArray _ => 4
  | VObjectId _ => 5
  | VBool _ => 6
  | VDate _ => 7
  end.

(** Numbers in order, [NaN] below them all. *)
Definition number_total_leb (a b : number) : bool :=
  match a, b with
  | NaN, _ => true
  | _, NaN => false
  | _, _ => number_leb a b
  end.

(** Values by rank, numbers by value, the other values of one rank left
    where they are. *)
Definition ranked_leb (a b : value) : bool :=
  if (bson_rank a <? bson_rank b)%nat then true
  else if (bson_rank b <? bson_rank a)%nat then false
  else match a, b with
       | VNumber x, VNumber y => number_total_leb x y
       | _, _ => true
       end.

Definition ranked_platform : Platform := {|
  ObjectId_isValid := Sample.isValid;
  ObjectId_new := Sample.objectId;
  Number_of_string := Sample.number_of_string;
  Date_toISOString := Sample.toISOString;
  bson_leb := ranked_leb
|}.

(* ================================================================= *)
(** ** Objects and documents *)

Lemma get_set (k k' : string) (v : value) (o : object) :
  get k (set k' v o) = if String.eqb k k' then v else get k o.
Proof.
  induction o as [|[k0 v0] o IH]; simpl.
  - destruct (String.eqb k k'); reflexivity.
  - destruct (String.eqb_spec k' k0) as [->|Hk0]; simpl.
    + destruct (String.eqb k k0); reflexivity.
    + destruct (String.eqb_spec k k0) as [->|Hk].
      * destruct (String.eqb_spec k0 k'); congruence.
      * exact IH.
Qed.

Lemma has_set (k k' : string) (v : value) (o : object) :
  has k (set k' v o) = String.eqb k k' || has k o.
Proof.
  unfold has, keys.
  induction o as [|[k0 v0] o IH]; simpl.
  - reflexivity.
  - destruct (String.eqb_spec k' k0) as [->|Hk0]; simpl.
    + destruct (String.eqb k k0); reflexivity.
    + rewrite IH.
      destruct (String.eqb k k0), (String.eqb k k'); reflexivity.
Qed.

(** A filter on keys keeps the properties it keeps as they are. *)
Lemma get_filter_keys (keep : string -> bool) (k : string) (d : object) :
  get k (filter (fun kv => keep (fst kv)) d)
  = if keep k then get k d else VUndefined.
Proof.
  induction d as [|[k0 v0] d IH]; simpl.
  - destruct (keep k); reflexivity.
  - destruct (keep k0) eqn:Hk0; simpl;
      destruct (String.eqb_spec k k0) as [->|Hk]; try exact IH.
    + rewrite Hk0. reflexivity.
    + rewrite IH, Hk0. reflexivity.
Qed.

Lemma has_filter_keys (keep : string -> bool) (k : string) (d : object) :
  has k (filter (fun kv => keep (fst kv)) d) = keep k && has k d.
Proof.
  unfold has, keys.
  induction d as [|[k0 v0] d IH]; simpl.
  - rewrite andb_false_r. reflexivity.
  - destruct (keep k0) eqn:Hk0; simpl; rewrite IH;
      destruct (String.eqb_spec k k0) as [->|Hk]; simpl;
      try rewrite Hk0; reflexivity.
Qed.

(** *** Sorting keeps the documents *)

Section SortFacts.
Context {P : Platform}.

Lemma In_insert_sorted (s : Sort) (d x : object) (l : list object) :
  In x (insert_sorted s d l) <-> x = d \/ In x l.
Proof.
  induction l as [|e l IH]; simpl.
  - intuition congruence.
  - destruct (sort_leb s d e); simpl; rewrite ?IH; intuition congruence.
Qed.

Lemma In_sort_docs (s : Sort) (x : object) (l : list object) :
  In x (sort_docs s l) <-> In x l.
Proof.
  induction l as [|e l IH]; simpl.
  - tauto.
  - rewrite In_insert_sorted, IH. intuition congruence.
Qed.

(** Every object a cursor returns is a stored document that matches the
    filter, seen through the projection. *)
Lemma In_run_cursor (c : Cursor) (l : list object) (r : object) :
  In r (run_cursor c l) ->
  exists d, In d l /\ matches (cursor_filter c) d = true /\
            r = match cursor_projection c with
                | Some p => apply_projection p d
                | None => d
                end.
Proof.
  unfold run_cursor. intros Hr.
  assert (Hsorted : forall x,
             In x (match cursor_sort c with
                   | Some s => sort_docs s (filter (matches (cursor_filter c)) l)
                   | None => filter (matches (cursor_filter c)) l
                   end) ->
             In x l /\ matches (cursor_filter c) x = true).
  { intros x Hx. apply filter_In.
    destruct (cursor_sort c); [apply In_sort_docs in Hx|]; exact Hx. }
  destruct (cursor_projection c) as [p|].
  - apply in_map_iff in Hr. destruct Hr as (d & <- & Hd).
    exists d. destruct (Hsorted d Hd). auto.
  - exists r. destruct (Hsorted r Hr). auto.
Qed.
End SortFacts.

(* ================================================================= *)
(** ** The readiness gate and the identifier check *)

(** C8. While [productsCollection] is not set, each of the five product
    routes answers 503 [{ error: "Database not ready yet" }] whatever the
    request holds (no validation runs, and there is no collection to call);
    the health check answers 200 with the status payload whether the
    collection is set or not, and leaves it as it is. *)
Theorem readiness_gate (P : Platform) (env : Env) :
  let not_ready := (status_json 503 (error "Database not ready yet"),
                    @None Collection) in
  (forall q, app env (GET_products q) None = not_ready) /\
  (forall id, app env (GET_product id) None = not_ready) /\
  (forall b, app env (POST_products b) None = not_ready) /\
  (forall id b, app env (PUT_product id b) None = not_ready) /\
  (forall id, app env (DELETE_product id) None = not_ready) /\
  (forall pc,
      app env GET_root pc
      = ({| status := 200;
            body := VObject [("status", VString "ok");
                             ("service", VString "practice11");
                             ("time",
                              VString (Date_toISOString (now env)))] |},
         pc)).
Proof.
  cbv zeta. repeat split.
Qed.

(** C7, counterexample. [abcdefghijkl] is not 24 hexadecimal digits, yet
    [ObjectId.isValid] takes any 12 characters for the 12 bytes of an
    identifier: the get-by-id and the delete look it up in the store and
    answer 404, and the update calls the store as well. *)
Lemma twelve_characters_accepted : ~ malformed_ids_refused.
Proof.
  intros H.
  destruct (H Sample.env "abcdefghijkl" [("stock", one)] Sample.shop eq_refl)
    as [Hget _].
  vm_compute in Hget. discriminate Hget.
Qed.

(** C7 as amended. Once the collection is set, a get-by-id, update or
    delete request whose identifier [ObjectId.isValid] refuses answers 400
    [{ error: "Invalid id" }]; the collection afterwards is the collection
    before, documents and history of calls alike. *)
Theorem malformed_id_rejected (P : Platform) (env : Env) (id : string)
  (b : object) (coll : Collection) :
  ObjectId_isValid id = false ->
  let invalid := (status_json 400 (error "Invalid id"), Some coll) in
  app env (GET_product id) (Some coll) = invalid /\
  app env (PUT_product id b) (Some coll) = invalid /\
  app env (DELETE_product id) (Some coll) = invalid.
Proof.
  intros Hid. cbv zeta. simpl.
  unfold get_product, put_product, delete_product.
  rewrite Hid. simpl. repeat split.
Qed.

Lemma malformed_id_rejected_witness :
  let invalid := (status_json 400 (error "Invalid id"), Some Sample.shop) in
  ObjectId_isValid "not-an-id" = false /\
  app Sample.env (GET_product "not-an-id") (Some Sample.shop) = invalid /\
  app Sample.env (PUT_product "not-an-id" [("stock", one)]) (Some Sample.shop)
  = invalid /\
  app Sample.env (DELETE_product "not-an-id") (Some Sample.shop) = invalid.
Proof.
  split; [reflexivity|].
  apply (malformed_id_rejected Sample.platform Sample.env "not-an-id"
           [("stock", one)] Sample.shop).
  reflexivity.
Defined.

(* ================================================================= *)
(** ** Create *)

(** C3. With the collection set and an identifier from the driver that no
    stored record carries: when [name] and [category] are truthy and
    [price] is a number, a create request answers 201 with the record
    [_id], [name], [category], [price], [stock] (the body's when it is a
    number, 0 otherwise) and [createdAt], and that record is appended to
    the collection; in every other case it answers 400 with the
    validation error and the collection is what it was, documents and
    history of calls. *)
Theorem create_contract (P : Platform) (env : Env) (b : object)
  (coll : Collection) :
  existsb (id_is (fresh_id env)) (docs coll) = false ->
  app env (POST_products b) (Some coll)
  = if truthy (get "name" b) && truthy (get "category" b)
       && typeof_number (get "price" b)
    then (status_json 201 (VObject (created env b)),
          Some {| docs := docs coll ++ [created env b];
                  history := CallInsertOne (new_product env b)
                               :: history coll |})
    else (status_json 400
            (VObject
               [("error", VString "Validation error");
                ("details",
                 VString
                   "name and category required; price must be a number")]),
          Some coll).
Proof.
  intros Hfresh. simpl. unfold post_products, insertOne.
  destruct (truthy (get "name" b)), (truthy (get "category" b)),
    (typeof_number (get "price" b)); simpl; try reflexivity.
  rewrite Hfresh. reflexivity.
Qed.

Lemma create_contract_witness :
  existsb (id_is (fresh_id Sample.env)) (docs Sample.shop) = false /\
  app Sample.env
    (POST_products [("name", VString "Pen");
                    ("category", VString "Stationery");
                    ("price", VNumber (Finite (3 # 2)))])
    (Some Sample.shop)
  = (status_json 201
       (VObject [("_id", VObjectId 4096);
                 ("name", VString "Pen");
                 ("category", VString "Stationery");
                 ("price", VNumber (Finite (3 # 2)));
                 ("stock", zero);
                 ("createdAt", VDate 1700000000000)]),
     Some {| docs := [Sample.pen; Sample.ink;
                      [("_id", VObjectId 4096);
                       ("name", VString "Pen");
                       ("category", VString "Stationery");
                       ("price", VNumber (Finite (3 # 2)));
                       ("stock", zero);
                       ("createdAt", VDate 1700000000000)]];
             history := [CallInsertOne
                           [("name", VString "Pen");
                            ("category", VString "Stationery");
                            ("price", VNumber (Finite (3 # 2)));
                            ("stock", zero);
                            ("createdAt", VDate 1700000000000)]] |}).
Proof.
  split; [reflexivity|].
  exact (create_contract Sample.platform Sample.env _ Sample.shop eq_refl).
Defined.

(** C9. Create does not ask [name] or [category] to be strings: the
    request [{ name: 42, category: { kind: "misc" }, price: 1 }] answers
    201, and the stored record keeps the number and the object as they
    came. *)
Theorem create_keeps_non_string_name (P : Platform) :
  let b := [("name", VNumber (Finite 42));
            ("category", VObject [("kind", VString "misc")]);
            ("price", one)] in
  exists res coll',
    app Sample.env (POST_products b) (Some Sample.shop) = (res, Some coll') /\
    status res = 201 /\
    body res = VObject (created Sample.env b) /\
    docs coll' = docs Sample.shop ++ [created Sample.env b] /\
    get "name" (created Sample.env b) = VNumber (Finite 42) /\
    get "category" (created Sample.env b)
    = VObject [("kind", VString "misc")].
Proof.
  cbv zeta. eexists. eexists. repeat split.
Qed.

(* ================================================================= *)
(** ** Update *)

Lemma get_after_update (b : object) (now : Z) (d : object) (k : string) :
  get k (apply_update (collect_updates b) now d)
  = field_after_update b now d k.
Proof.
  unfold apply_update, field_after_update, collect_updates, allowed, spread.
  rewrite get_set. case_key k "updatedAt".
  destruct (defined (get "name" b)) eqn:Hn,
           (defined (get "category" b)) eqn:Hc,
           (defined (get "price" b)) eqn:Hp,
           (defined (get "stock" b)) eqn:Hs; simpl;
    rewrite ?get_set;
    case_key k "stock"; rewrite ?Hs; simpl; try reflexivity;
    case_key k "price"; rewrite ?Hp; simpl; try reflexivity;
    case_key k "category"; rewrite ?Hc; simpl; try reflexivity;
    case_key k "name"; rewrite ?Hn; simpl; reflexivity.
Qed.

(** The updates depend on the allowed keys of the body only. *)
Lemma collect_updates_allowed (b b2 : object) :
  (forall k, In k allowed -> get k b2 = get k b) ->
  collect_updates b2 = collect_updates b.
Proof.
  intros H. unfold collect_updates, allowed. simpl.
  rewrite !H by (simpl; tauto). reflexivity.
Qed.

(** [update_first] rewrites the first record under the identifier and
    nothing else. *)
Lemma update_first_found (oid : N) (u : object) (now : Z) (l l' : list object)
  (d' : object) :
  update_first oid u now l = (Some d', l') ->
  exists d before after,
    l = before ++ d :: after /\
    l' = before ++ d' :: after /\
    d' = apply_update u now d /\
    id_is oid d = true /\
    forallb (fun x => negb (id_is oid x)) before = true.
Proof.
  revert l'. induction l as [|e l IH]; simpl; intros l' H.
  - discriminate.
  - destruct (id_is oid e) eqn:He.
    + inversion H; subst. exists e, [], l. simpl. auto.
    + destruct (update_first oid u now l) as [r l''] eqn:Hu.
      inversion H; subst.
      destruct (IH l'' eq_refl) as (d & before & after & -> & -> & Hd & Hid & Hb).
      exists d, (e :: before), after. simpl. rewrite He. simpl. auto.
Qed.

(** A 200 from the update handler comes from [findOneAndUpdate] alone. *)
Lemma put_product_ok (P : Platform) (env : Env) (id : string) (b : object)
  (coll : Collection) (res : Response) (coll' : Collection) :
  put_product env id b coll = (res, coll') ->
  status res = 200 ->
  exists d',
    update_first (ObjectId_new id) (collect_updates b) (store_now env)
      (docs coll) = (Some d', docs coll') /\
    res = json (VObject d').
Proof.
  unfold put_product, findOneAndUpdate. intros H Hs.
  destruct (negb (ObjectId_isValid id));
    [inversion H; subst; discriminate|].
  destruct (Nat.eqb _ 0); [inversion H; subst; discriminate|].
  destruct (defined (get "price" _) && _);
    [inversion H; subst; discriminate|].
  destruct (defined (get "stock" _) && _);
    [inversion H; subst; discriminate|].
  destruct (update_first _ _ _ _) as [[d'|] l] eqn:Hu;
    inversion H; subst; [|discriminate].
  exists d'. auto.
Qed.

(** C6. With the collection set, when an update answers 200: the
    collection held a record [d] under the identifier; the answer is the
    record [d'] that now stands in its place, every other record being
    where and what it was; a field of [d'] is the store's time under
    [updatedAt], the body's value under a key of the allow-list that the
    body defines, and the field of [d] everywhere else, so [_id] and
    [createdAt] are those of [d]; and a body that agrees with this one on
    the allow-list gives the same answer and the same collection. *)
Theorem update_frame (P : Platform) (env : Env) (id : string) (b : object)
  (coll : Collection) (res : Response) (coll' : Collection) :
  app env (PUT_product id b) (Some coll) = (res, Some coll') ->
  status res = 200 ->
  exists d d' before after,
    docs coll = before ++ d :: after /\
    docs coll' = before ++ d' :: after /\
    id_is (ObjectId_new id) d = true /\
    forallb (fun x => negb (id_is (ObjectId_new id) x)) before = true /\
    body res = VObject d' /\
    (forall k, get k d' = field_after_update b (store_now env) d k) /\
    get "_id" d' = get "_id" d /\
    get "createdAt" d' = get "createdAt" d /\
    (forall b2,
        (forall k, In k allowed -> get k b2 = get k b) ->
        app env (PUT_product id b2) (Some coll) = (res, Some coll')).
Proof.
  simpl. intros H Hs.
  destruct (put_product env id b coll) as [res0 coll0] eqn:Hput.
  inversion H; subst res0 coll0.
  destruct (put_product_ok _ _ _ _ _ _ _ Hput Hs) as (d' & Hu & ->).
  destruct (update_first_found _ _ _ _ _ _ Hu)
    as (d & before & after & Hl & Hl' & -> & Hid & Hb).
  exists d, (apply_update (collect_updates b) (store_now env) d), before, after.
  repeat split; auto.
  - apply get_after_update.
  - rewrite get_after_update. reflexivity.
  - rewrite get_after_update. reflexivity.
  - intros b2 Hb2. unfold put_product in *.
    rewrite (collect_updates_allowed b b2 Hb2), Hput. reflexivity.
Qed.

Lemma update_frame_witness :
  let b := [("price", VNumber (Finite (999 # 100))); ("owner", VString "me")] in
  let pen' := [("_id", VObjectId 256);
               ("name", VString "Pen");
               ("category", VString "Stationery");
               ("price", VNumber (Finite (999 # 100)));
               ("stock", zero);
               ("createdAt", VDate 1600000000000);
               ("updatedAt", VDate 1700000000500)] in
  let res := json (VObject pen') in
  let coll' := {| docs := [pen'; Sample.ink];
                  history := [CallFindOneAndUpdate 256
                                [("price", VNumber (Finite (999 # 100)))]] |} in
  app Sample.env (PUT_product Sample.pen_id b) (Some Sample.shop)
  = (res, Some coll') /\
  status res = 200 /\
  exists d d' before after,
    docs Sample.shop = before ++ d :: after /\
    docs coll' = before ++ d' :: after /\
    id_is (ObjectId_new Sample.pen_id) d = true /\
    forallb (fun x => negb (id_is (ObjectId_new Sample.pen_id) x)) before
    = true /\
    body res = VObject d' /\
    (forall k, get k d' = field_after_update b (store_now Sample.env) d k) /\
    get "_id" d' = get "_id" d /\
    get "createdAt" d' = get "createdAt" d /\
    (forall b2,
        (forall k, In k allowed -> get k b2 = get k b) ->
        app Sample.env (PUT_product Sample.pen_id b2) (Some Sample.shop)
        = (res, Some coll')).
Proof.
  intros b pen' res coll'.
  split; [reflexivity|]. split; [reflexivity|].
  apply (update_frame Sample.platform Sample.env Sample.pen_id b Sample.shop
           res coll'); reflexivity.
Defined.

(** C1, the update half. [PUT { name: "" }] on a stored record answers 200
    and leaves the record with the empty string for a name, while
    [POST] with the same name answers 400: create tests [!name], update
    only tests [!== undefined]. *)
Theorem update_stores_empty_name :
  let pen' := [("_id", VObjectId 256);
               ("name", VString "");
               ("category", VString "Stationery");
               ("price", VNumber (Finite (3 # 2)));
               ("stock", zero);
               ("createdAt", VDate 1600000000000);
               ("updatedAt", VDate 1700000000500)] in
  app Sample.env (PUT_product Sample.pen_id [("name", VString "")])
    (Some Sample.shop)
  = (json (VObject pen'),
     Some {| docs := [pen'; Sample.ink];
             history := [CallFindOneAndUpdate 256 [("name", VString "")]] |})
  /\
  status (fst (app Sample.env
                 (POST_products [("name", VString "");
                                 ("category", VString "Stationery");
                                 ("price", VNumber (Finite (3 # 2)))])
                 (Some Sample.shop))) = 400.
Proof.
  split; reflexivity.
Qed.

(** *** A stock that is not a number *)

(** C2, counterexample. Create does not validate [stock]: with
    [stock: "many"] the request answers 201 and a record is stored, its
    [stock] 0. *)
Lemma create_defaults_stock : ~ stock_is_validated_everywhere.
Proof.
  intros H.
  destruct (H Sample.platform Sample.env
              (POST_products [("name", VString "Pen");
                              ("category", VString "Stationery");
                              ("price", one);
                              ("stock", VString "many")])
              [("name", VString "Pen");
               ("category", VString "Stationery");
               ("price", one);
               ("stock", VString "many")]
              Sample.shop) as (details & Hrun); auto.
  vm_compute in Hrun. discriminate Hrun.
Qed.

(** C2 as amended. A request whose [stock] is defined and is not a number:
    as an update, with the collection set, it answers 400 with an error
    message and the collection stays as it was, documents and history of
    calls; as a create, it is answered as the same request with [stock]
    0. *)
Theorem non_numeric_stock (P : Platform) (env : Env) (id : string)
  (b : object) (coll : Collection) :
  defined (get "stock" b) = true ->
  typeof_number (get "stock" b) = false ->
  (exists msg,
      app env (PUT_product id b) (Some coll)
      = (status_json 400 (error msg), Some coll)) /\
  app env (POST_products b) (Some coll)
  = app env (POST_products (set "stock" zero b)) (Some coll).
Proof.
  intros Hdef Hnum. split.
  - simpl. unfold put_product.
    destruct (negb (ObjectId_isValid id)); [eexists; reflexivity|].
    assert (Hstock : get "stock" (collect_updates b) = get "stock" b).
    { unfold collect_updates, allowed. simpl. rewrite Hdef.
      apply get_set. }
    assert (Hkeys : Nat.eqb (List.length (keys (collect_updates b))) 0 = false).
    { rewrite <- Hstock in Hdef.
      destruct (collect_updates b) as [|kv u]; [discriminate|reflexivity]. }
    rewrite Hkeys, Hstock, Hdef, Hnum. simpl.
    destruct (defined (get "price" _) && _); eexists; reflexivity.
  - simpl. unfold post_products. rewrite !get_set. simpl.
    rewrite Hnum. reflexivity.
Qed.

Lemma non_numeric_stock_witness :
  let b := [("stock", VString "many")] in
  defined (get "stock" b) = true /\
  typeof_number (get "stock" b) = false /\
  (exists msg,
      app Sample.env (PUT_product Sample.pen_id b) (Some Sample.shop)
      = (status_json 400 (error msg), Some Sample.shop)) /\
  app Sample.env (POST_products b) (Some Sample.shop)
  = app Sample.env (POST_products (set "stock" zero b)) (Some Sample.shop).
Proof.
  intros b. split; [reflexivity|]. split; [reflexivity|].
  apply (non_numeric_stock Sample.platform Sample.env Sample.pen_id b
           Sample.shop); reflexivity.
Defined.

(* ================================================================= *)
(** ** List *)

Lemma get_products_runs (P : Platform) (q : Query) (f : Filter)
  (coll : Collection) :
  build_filter q = inr f ->
  get_products q coll
  = (json (VArray (map VObject (run_cursor (list_cursor q f) (docs coll)))),
     called (CallFind (list_cursor q f)) coll).
Proof.
  intros Hf. unfold get_products, list_cursor, toArray. rewrite Hf.
  destruct (build_projection q), (build_sort q); reflexivity.
Qed.

(** A list request answers 200 only with the result of its cursor. *)
Lemma get_products_ok (P : Platform) (q : Query) (coll : Collection)
  (res : Response) (coll' : Collection) :
  get_products q coll = (res, coll') ->
  status res = 200 ->
  exists f,
    build_filter q = inr f /\
    body res = VArray (map VObject (run_cursor (list_cursor q f) (docs coll))).
Proof.
  intros H Hs. destruct (build_filter q) as [res0|f] eqn:Hf.
  - unfold get_products in H. rewrite Hf in H. inversion H; subst.
    unfold build_filter in Hf.
    destruct (query_minPrice q); [|discriminate].
    destruct (isNaN _); inversion Hf; subst; discriminate.
  - rewrite (get_products_runs _ _ _ _ Hf) in H. inversion H; subst.
    exists f. auto.
Qed.

(** C4, counterexample. [?minPrice=] gives the empty string, which writes
    no number; [Number] converts it to 0, so the request is answered 200
    with the records whose price is at least 0, after a call to the
    store. *)
Lemma blank_minPrice_accepted : ~ non_numbers_refused.
Proof.
  intros H.
  specialize (H Sample.env
                {| query_category := None; query_minPrice := Some "";
                   query_sort := None; query_fields := None |}
                "" Sample.shop eq_refl eq_refl).
  vm_compute in H. discriminate H.
Qed.

(** On the sample platform a [minPrice] that is empty or all white space
    converts to 0. *)
Lemma blank_converts_to_zero (s : string) :
  trim s = "" -> Sample.number_of_string s = Finite 0.
Proof.
  intros H. unfold Sample.number_of_string. rewrite H. reflexivity.
Qed.

(** C4 as amended. With the collection set and a [minPrice] in the query:
    when [Number(minPrice)] is [NaN], the answer is 400
    [{ error: "minPrice must be a number" }] and the collection is what it
    was, documents and history of calls; otherwise the answer is 200 with
    a list in which every object is a stored record, seen through the
    projection of the request if it has one, whose price the store matched
    against [$gte]: when that price is a number, as create and update
    require, [Number(minPrice)] is at most the price. *)
Theorem list_minPrice (P : Platform) (env : Env) (q : Query) (s : string)
  (coll : Collection) :
  query_minPrice q = Some s ->
  if isNaN (Number_of_string s)
  then app env (GET_products q) (Some coll)
       = (status_json 400 (error "minPrice must be a number"), Some coll)
  else exists rs coll',
      app env (GET_products q) (Some coll)
      = (json (VArray (map VObject rs)), Some coll') /\
      forall r, In r rs ->
        exists d, In d (docs coll) /\
          r = match build_projection q with
              | Some p => apply_projection p d
              | None => d
              end /\
          (query_fields q = None -> r = d) /\
          gte_match (Number_of_string s) (get "price" d) = true /\
          (forall p, get "price" d = VNumber p ->
                     number_leb (Number_of_string s) p = true).
Proof.
  intros Hq. simpl.
  destruct (isNaN (Number_of_string s)) eqn:Hnan.
  - unfold get_products, build_filter. rewrite Hq, Hnan. reflexivity.
  - assert (Hf : exists f, build_filter q = inr f /\
                           filter_price_gte f = Some (Number_of_string s)).
    { unfold build_filter. rewrite Hq, Hnan. eexists. split; reflexivity. }
    destruct Hf as (f & Hf & Hmin).
    rewrite (get_products_runs _ _ _ coll Hf).
    eexists. eexists. split; [reflexivity|].
    intros r Hr. apply In_run_cursor in Hr.
    destruct Hr as (d & Hd & Hm & Hr). simpl in Hm, Hr. subst r.
    unfold matches in Hm. rewrite Hmin in Hm.
    apply andb_true_iff in Hm. destruct Hm as [_ Hm].
    exists d. repeat split; auto.
    + intros Hnone. unfold build_projection. rewrite Hnone. reflexivity.
    + intros p Hp. rewrite Hp in Hm. exact Hm.
Qed.

Lemma list_minPrice_witness :
  let q s := {| query_category := None; query_minPrice := Some s;
                query_sort := Some "price"; query_fields := None |} in
  (query_minPrice (q "abc") = Some "abc" /\
   app Sample.env (GET_products (q "abc")) (Some Sample.shop)
   = (status_json 400 (error "minPrice must be a number"), Some Sample.shop))
  /\
  (query_minPrice (q "10") = Some "10" /\
   exists rs coll',
     app Sample.env (GET_products (q "10")) (Some Sample.shop)
     = (json (VArray (map VObject rs)), Some coll') /\
     forall r, In r rs ->
       exists d, In d (docs Sample.shop) /\
         r = match build_projection (q "10") with
             | Some p => apply_projection p d
             | None => d
             end /\
         (query_fields (q "10") = None -> r = d) /\
         gte_match (Number_of_string "10") (get "price" d) = true /\
         (forall p, get "price" d = VNumber p ->
                    number_leb (Number_of_string "10") p = true)).
Proof.
  intros q. split; (split; [reflexivity|]).
  - exact (list_minPrice Sample.platform Sample.env (q "abc") "abc"
             Sample.shop eq_refl).
  - exact (list_minPrice Sample.platform Sample.env (q "10") "10"
             Sample.shop eq_refl).
Defined.

(** *** The projection of [fields] *)

(** [for (const f of selectedFields) projection[f] = 1]. *)
Lemma get_assigned (sel : list string) (acc : object) (k : string) :
  get k (fold_left (fun p f => assign f one p) sel acc)
  = if includes k sel && negb (String.eqb k "__proto__") then one
    else get k acc.
Proof.
  revert acc. induction sel as [|f sel IH]; intros acc; simpl.
  - reflexivity.
  - rewrite IH. unfold assign.
    destruct (includes k sel) eqn:Hin; simpl.
    + rewrite orb_true_r. simpl.
      destruct (String.eqb k "__proto__") eqn:Hk; simpl; [|reflexivity].
      apply String.eqb_eq in Hk. subst k.
      destruct (String.eqb f "__proto__") eqn:Hf; [reflexivity|].
      rewrite get_set, String.eqb_sym, Hf. reflexivity.
    + rewrite orb_false_r.
      destruct (String.eqb_spec f "__proto__") as [->|Hf].
      * destruct (String.eqb k "__proto__"); reflexivity.
      * rewrite get_set.
        destruct (String.eqb_spec k f) as [->|Hkf]; simpl; [|reflexivity].
        destruct (String.eqb_spec f "__proto__"); [contradiction|reflexivity].
Qed.

Lemma truthy_get_existsb (k : string) (o : object) :
  truthy (get k o) = true ->
  existsb (fun kv => truthy (snd kv)) o = true.
Proof.
  induction o as [|[k0 v0] o IH]; simpl; intros H.
  - discriminate.
  - destruct (String.eqb k k0).
    + rewrite H. reflexivity.
    + rewrite (IH H). apply orb_true_r.
Qed.

Lemma attribute_not_proto (sel : list string) (k : string) :
  forallb attribute_name sel = true ->
  includes k sel = true ->
  String.eqb k "__proto__" = false.
Proof.
  intros Hall Hin. unfold includes in Hin.
  apply existsb_exists in Hin. destruct Hin as (f & Hf & Hkf).
  apply String.eqb_eq in Hkf. subst f.
  rewrite forallb_forall in Hall. specialize (Hall k Hf).
  unfold attribute_name in Hall.
  destruct (String.eqb k "__proto__"); [discriminate|reflexivity].
Qed.

(** With at least one name selected, all of them attribute names, the
    projection of the list route keeps of a document exactly the
    properties whose key is selected. *)
Lemma projection_selects (P : Platform) (q : Query) (fields : string)
  (d : object) :
  query_fields q = Some fields ->
  selectedFields fields <> [] ->
  forallb attribute_name (selectedFields fields) = true ->
  exists p,
    build_projection q = Some p /\
    apply_projection p d
    = filter (fun kv => includes (fst kv) (selectedFields fields)) d.
Proof.
  intros Hq Hne Hall. unfold build_projection. rewrite Hq.
  destruct fields as [|c fields']; [exfalso; apply Hne; reflexivity|].
  change (nonempty (String c fields')) with true. cbv iota.
  set (sel := selectedFields (String c fields')) in *.
  set (p0 := fold_left (fun p f => assign f one p) sel []).
  assert (Hget : forall k, get k p0 = if includes k sel then one else VUndefined).
  { intros k. unfold p0. rewrite get_assigned.
    destruct (includes k sel) eqn:Hin; [|reflexivity].
    rewrite (attribute_not_proto sel k Hall Hin). reflexivity. }
  eexists. split; [reflexivity|].
  set (p := if negb (includes "_id" sel) then assign "_id" zero p0 else p0).
  assert (Hp : forall k, String.eqb k "_id" = false -> get k p = get k p0).
  { intros k Hk. unfold p. destruct (negb (includes "_id" sel)); [|reflexivity].
    unfold assign. simpl. rewrite get_set, Hk. reflexivity. }
  unfold apply_projection.
  assert (Hincl : existsb (fun kv => truthy (snd kv)) p = true).
  { destruct sel as [|f sel'] eqn:Hsel; [contradiction|].
    destruct (String.eqb_spec f "_id") as [->|Hf].
    - apply (truthy_get_existsb "_id"). unfold p. simpl.
      rewrite Hget. simpl. reflexivity.
    - apply (truthy_get_existsb f). rewrite Hp, Hget.
      + simpl. rewrite String.eqb_refl. reflexivity.
      + apply String.eqb_neq. exact Hf. }
  rewrite Hincl. apply filter_ext. intros [k v]. simpl.
  destruct (String.eqb_spec k "_id") as [->|Hk].
  - unfold p. destruct (includes "_id" sel) eqn:Hid; simpl.
    + rewrite Hget, Hid. apply orb_true_r.
    + unfold assign. simpl. rewrite has_set, get_set. reflexivity.
  - rewrite Hp, Hget by (apply String.eqb_neq; exact Hk).
    destruct (includes k sel); reflexivity.
Qed.

(** C5, counterexample. A record that was never updated has no
    [updatedAt]: with [fields=name,updatedAt] it comes back as [{ name }]
    alone. *)
Lemma missing_field_not_returned : ~ fields_are_exact.
Proof.
  intros H.
  specialize (H Sample.platform Sample.env
                {| query_category := None; query_minPrice := None;
                   query_sort := None;
                   query_fields := Some "name,updatedAt" |}
                "name,updatedAt" Sample.shop
                [[("name", VString "Pen")]; [("name", VString "Ink")]]
                (called (CallFind
                           (list_cursor
                              {| query_category := None;
                                 query_minPrice := None;
                                 query_sort := None;
                                 query_fields := Some "name,updatedAt" |}
                              {| filter_category := None;
                                 filter_price_gte := None |}))
                        Sample.shop)
                eq_refl).
  assert (Hsel : selectedFields "name,updatedAt" = ["name"; "updatedAt"])
    by reflexivity.
  rewrite Hsel in H.
  specialize (H ltac:(discriminate) eq_refl eq_refl
                [("name", VString "Pen")] "updatedAt" (or_introl eq_refl)).
  discriminate H.
Qed.

(** C5 as amended. With the collection set, a [fields] that selects at
    least one name and only attribute names, and an answer 200: every
    returned object is a stored record reduced to its properties whose key
    is selected; it has a selected attribute exactly when the record has
    it, with the record's value, and no other attribute; in particular it
    has no [_id] when [_id] is not selected. *)
Theorem list_fields (P : Platform) (env : Env) (q : Query) (fields : string)
  (coll : Collection) (res : Response) (coll' : Collection) :
  query_fields q = Some fields ->
  selectedFields fields <> [] ->
  forallb attribute_name (selectedFields fields) = true ->
  app env (GET_products q) (Some coll) = (res, Some coll') ->
  status res = 200 ->
  exists rs,
    body res = VArray (map VObject rs) /\
    forall r, In r rs ->
      exists d, In d (docs coll) /\
        (forall k, get k r = if includes k (selectedFields fields)
                             then get k d else VUndefined) /\
        (forall k, has k r = includes k (selectedFields fields) && has k d) /\
        (includes "_id" (selectedFields fields) = false ->
         has "_id" r = false).
Proof.
  intros Hq Hne Hall Hrun Hs. simpl in Hrun.
  destruct (get_products q coll) as [res0 coll0] eqn:Hget.
  inversion Hrun; subst res0 coll0.
  destruct (get_products_ok _ _ _ _ _ Hget Hs) as (f & Hf & Hbody).
  eexists. split; [exact Hbody|].
  intros r Hr. apply In_run_cursor in Hr.
  destruct Hr as (d & Hd & _ & Hr). simpl in Hr.
  destruct (projection_selects P q fields d Hq Hne Hall) as (p & Hp & Happ).
  rewrite Hp, Happ in Hr. subst r.
  exists d. split; [exact Hd|].
  assert (Hhas : forall k,
             has k (filter (fun kv => includes (fst kv) (selectedFields fields)) d)
             = includes k (selectedFields fields) && has k d).
  { intros k.
    apply (has_filter_keys (fun k => includes k (selectedFields fields))). }
  repeat split.
  - intros k.
    apply (get_filter_keys (fun k => includes k (selectedFields fields))).
  - exact Hhas.
  - intros Hid. rewrite Hhas, Hid. reflexivity.
Qed.

Lemma list_fields_witness :
  let q := {| query_category := None; query_minPrice := None;
              query_sort := None; query_fields := Some "name, price" |} in
  let res := json (VArray [VObject [("name", VString "Pen");
                                    ("price", VNumber (Finite (3 # 2)))];
                           VObject [("name", VString "Ink");
                                    ("price", VNumber (Finite (12 # 1)))]]) in
  let coll' := called (CallFind
                         (list_cursor q {| filter_category := None;
                                           filter_price_gte := None |}))
                 Sample.shop in
  query_fields q = Some "name, price" /\
  selectedFields "name, price" <> [] /\
  forallb attribute_name (selectedFields "name, price") = true /\
  app Sample.env (GET_products q) (Some Sample.shop) = (res, Some coll') /\
  status res = 200 /\
  exists rs,
    body res = VArray (map VObject rs) /\
    forall r, In r rs ->
      exists d, In d (docs Sample.shop) /\
        (forall k, get k r = if includes k (selectedFields "name, price")
                             then get k d else VUndefined) /\
        (forall k, has k r
                   = includes k (selectedFields "name, price") && has k d) /\
        (includes "_id" (selectedFields "name, price") = false ->
         has "_id" r = false).
Proof.
  intros q res coll'.
  assert (Hne : selectedFields "name, price" <> []) by discriminate.
  repeat (split; [first [reflexivity | exact Hne]|]).
  apply (list_fields Sample.platform Sample.env q "name, price" Sample.shop
           res coll' eq_refl Hne eq_refl eq_refl eq_refl).
Defined.

(** *** A [fields] that selects nothing *)

(** C10, counterexample. [?fields=] gives the empty string, which
    [if (fields)] takes for no [fields] at all: the records come back
    whole, [_id] included. *)
Lemma empty_fields_keep_id : ~ blank_fields_drop_id.
Proof.
  intros H.
  specialize (H Sample.platform Sample.env
                {| query_category := None; query_minPrice := None;
                   query_sort := None; query_fields := Some "" |}
                "" Sample.shop [Sample.pen; Sample.ink]
                (called (CallFind
                           (list_cursor
                              {| query_category := None;
                                 query_minPrice := None;
                                 query_sort := None;
                                 query_fields := Some "" |}
                              {| filter_category := None;
                                 filter_price_gte := None |}))
                        Sample.shop)
                eq_refl eq_refl eq_refl Sample.pen (or_introl eq_refl)).
  discriminate H.
Qed.

(** C10 as amended. With the collection set, a [fields] that is not the
    empty string and leaves no name after splitting and trimming, and an
    answer 200: every returned object is a stored record without its
    [_id] property and with every other property as stored. *)
Theorem list_fields_blank (P : Platform) (env : Env) (q : Query)
  (fields : string) (coll : Collection) (res : Response)
  (coll' : Collection) :
  query_fields q = Some fields ->
  fields <> "" ->
  selectedFields fields = [] ->
  app env (GET_products q) (Some coll) = (res, Some coll') ->
  status res = 200 ->
  exists rs,
    body res = VArray (map VObject rs) /\
    forall r, In r rs ->
      exists d, In d (docs coll) /\
        r = filter (fun kv => negb (String.eqb (fst kv) "_id")) d /\
        (forall k, get k r = if String.eqb k "_id" then VUndefined
                             else get k d) /\
        (forall k, has k r = negb (String.eqb k "_id") && has k d).
Proof.
  intros Hq Hne Hsel Hrun Hs. simpl in Hrun.
  destruct (get_products q coll) as [res0 coll0] eqn:Hget.
  inversion Hrun; subst res0 coll0.
  destruct (get_products_ok _ _ _ _ _ Hget Hs) as (f & Hf & Hbody).
  eexists. split; [exact Hbody|].
  intros r Hr. apply In_run_cursor in Hr.
  destruct Hr as (d & Hd & _ & Hr). simpl in Hr.
  assert (Hp : build_projection q = Some [("_id", zero)]).
  { unfold build_projection. rewrite Hq.
    destruct fields as [|c fields']; [contradiction|].
    change (nonempty (String c fields')) with true. cbv iota.
    rewrite Hsel. reflexivity. }
  rewrite Hp in Hr.
  assert (Hdrop : apply_projection [("_id", zero)] d
                  = filter (fun kv => negb (String.eqb (fst kv) "_id")) d).
  { unfold apply_projection. simpl. apply filter_ext. intros [k v].
    unfold has, keys. simpl.
    destruct (String.eqb k "_id"); reflexivity. }
  rewrite Hdrop in Hr. subst r.
  exists d. repeat split; auto.
  - intros k.
    rewrite (get_filter_keys (fun k => negb (String.eqb k "_id"))).
    destruct (String.eqb k "_id"); reflexivity.
  - intros k.
    apply (has_filter_keys (fun k => negb (String.eqb k "_id"))).
Qed.

Lemma list_fields_blank_witness :
  let q := {| query_category := None; query_minPrice := None;
              query_sort := None; query_fields := Some " ,," |} in
  let res := json (VArray [VObject (tl Sample.pen);
                           VObject (tl Sample.ink)]) in
  let coll' := called (CallFind
                         (list_cursor q {| filter_category := None;
                                           filter_price_gte := None |}))
                 Sample.shop in
  query_fields q = Some " ,," /\
  " ,," <> "" /\
  selectedFields " ,," = [] /\
  app Sample.env (GET_products q) (Some Sample.shop) = (res, Some coll') /\
  status res = 200 /\
  exists rs,
    body res = VArray (map VObject rs) /\
    forall r, In r rs ->
      exists d, In d (docs Sample.shop) /\
        r = filter (fun kv => negb (String.eqb (fst kv) "_id")) d /\
        (forall k, get k r = if String.eqb k "_id" then VUndefined
                             else get k d) /\
        (forall k, has k r = negb (String.eqb k "_id") && has k d).
Proof.
  intros q res coll'.
  assert (Hne : " ,," <> "") by discriminate.
  repeat (split; [first [reflexivity | exact Hne]|]).
  apply (list_fields_blank Sample.platform Sample.env q " ,," Sample.shop
           res coll' eq_refl Hne eq_refl eq_refl eq_refl).
Defined.

(* ================================================================= *)
(** ** An invariant of the collection: prices are numbers *)

Lemma undefined_get (k : string) (b : object) :
  defined (get k b) = false -> get k b = VUndefined.
Proof.
  destruct (get k b); simpl; intros H; [reflexivity|discriminate..].
Qed.

Lemma get_collect_updates (b : object) (k : string) :
  get k (collect_updates b)
  = if includes k allowed then get k b else VUndefined.
Proof.
  unfold collect_updates, allowed.
  destruct (defined (get "name" b)) eqn:Hn,
           (defined (get "category" b)) eqn:Hc,
           (defined (get "price" b)) eqn:Hp,
           (defined (get "stock" b)) eqn:Hs; simpl;
    rewrite ?Hn, ?Hc, ?Hp, ?Hs; simpl; rewrite ?get_set;
    apply undefined_get in Hn || idtac;
    apply undefined_get in Hc || idtac;
    apply undefined_get in Hp || idtac;
    apply undefined_get in Hs || idtac;
    case_key k "stock"; try (symmetry; assumption);
    case_key k "price"; try (symmetry; assumption);
    case_key k "category"; try (symmetry; assumption);
    case_key k "name"; try (symmetry; assumption).
Qed.

Lemma update_first_missing (oid : N) (u : object) (now : Z)
  (l l' : list object) :
  update_first oid u now l = (None, l') -> l' = l.
Proof.
  revert l'. induction l as [|e l IH]; simpl; intros l' H.
  - inversion H. reflexivity.
  - destruct (id_is oid e); [discriminate|].
    destruct (update_first oid u now l) as [r l''].
    inversion H; subst. f_equal. apply IH. reflexivity.
Qed.

Lemma delete_first_keeps (Q : object -> Prop) (oid : N) (l : list object) :
  Forall Q l -> Forall Q (snd (delete_first oid l)).
Proof.
  induction 1 as [|e l He Hl IH]; simpl.
  - constructor.
  - destruct (id_is oid e); [exact Hl|].
    destruct (delete_first oid l) as [n l']. simpl in *.
    constructor; assumption.
Qed.

(** Every request leaves a collection whose records all have a number for
    a price in that state: create stores the body's price after
    [typeof price === "number"], update sets one under the same test, and
    nothing else writes a price. *)
Lemma prices_stay_numbers (P : Platform) (env : Env) (req : Request)
  (coll : Collection) :
  let priced d := typeof_number (get "price" d) = true in
  Forall priced (docs coll) ->
  match snd (app env req (Some coll)) with
  | Some coll' => Forall priced (docs coll')
  | None => False
  end.
Proof.
  intros priced Hall. destruct req as [|q|id|b|id b|id]; simpl.
  - exact Hall.
  - unfold get_products. destruct (build_filter q); simpl; exact Hall.
  - unfold get_product. destruct (negb (ObjectId_isValid id)); simpl;
      [exact Hall|].
    destruct (List.find _ _); simpl; exact Hall.
  - unfold post_products, insertOne.
    destruct (truthy (get "name" b)), (truthy (get "category" b)),
      (typeof_number (get "price" b)) eqn:Hp; simpl; try exact Hall.
    destruct (existsb _ _); simpl; [exact Hall|].
    apply Forall_app. split; [exact Hall|].
    constructor; [exact Hp|constructor].
  - unfold put_product, findOneAndUpdate.
    destruct (negb (ObjectId_isValid id)); simpl; [exact Hall|].
    destruct (Nat.eqb _ 0); simpl; [exact Hall|].
    destruct (defined (get "price" (collect_updates b))
              && negb (typeof_number (get "price" (collect_updates b))))
      eqn:Hprice; simpl; [exact Hall|].
    destruct (defined (get "stock" _) && _); simpl; [exact Hall|].
    destruct (update_first _ _ _ _) as [[d'|] l] eqn:Hu; simpl.
    + destruct (update_first_found _ _ _ _ _ _ Hu)
        as (d & before & after & Hl & -> & -> & _ & _).
      rewrite Hl in Hall. apply Forall_app in Hall.
      destruct Hall as [Hbefore Hrest]. inversion Hrest; subst.
      apply Forall_app. split; [exact Hbefore|].
      constructor; [|assumption].
      unfold priced. rewrite get_after_update. unfold field_after_update.
      rewrite get_collect_updates in Hprice. simpl in *.
      destruct (defined (get "price" b)); simpl in *; [|assumption].
      destruct (typeof_number (get "price" b)); [reflexivity|discriminate].
    + rewrite (update_first_missing _ _ _ _ _ Hu). exact Hall.
  - unfold delete_product, deleteOne.
    destruct (negb (ObjectId_isValid id)); simpl; [exact Hall|].
    pose proof (delete_first_keeps priced (ObjectId_new id) _ Hall) as Hdel.
    destruct (delete_first _ _) as [n l]. simpl in Hdel.
    destruct (Nat.eqb n 0); simpl; exact Hdel.
Qed.

(* ================================================================= *)
(** ** Looking a record up by its identifier *)

Lemma find_none_existsb (oid : N) (l : list object) :
  existsb (id_is oid) l = false -> List.find (id_is oid) l = None.
Proof.
  induction l as [|e l IH]; simpl; [reflexivity|].
  destruct (id_is oid e); simpl; [discriminate|exact IH].
Qed.

Lemma find_after_prefix (oid : N) (before after : list object) (d : object) :
  forallb (fun x => negb (id_is oid x)) before = true ->
  id_is oid d = true ->
  List.find (id_is oid) (before ++ d :: after) = Some d.
Proof.
  intros Hb Hd. induction before as [|e before IH]; simpl.
  - rewrite Hd. reflexivity.
  - simpl in Hb. apply andb_true_iff in Hb. destruct Hb as [He Hb].
    destruct (id_is oid e); [discriminate|]. exact (IH Hb).
Qed.

Lemma find_prefix (oid : N) (l : list object) (d : object) :
  List.find (id_is oid) l = Some d ->
  exists before after,
    l = before ++ d :: after /\
    forallb (fun x => negb (id_is oid x)) before = true /\
    id_is oid d = true.
Proof.
  induction l as [|e l IH]; simpl; [discriminate|].
  destruct (id_is oid e) eqn:He; intros H.
  - inversion H; subst. exists [], l. auto.
  - destruct (IH H) as (before & after & -> & Hb & Hd).
    exists (e :: before), after. simpl. rewrite He. auto.
Qed.

Lemma id_is_get (oid : N) (d : object) :
  id_is oid d = true <-> get "_id" d = VObjectId oid.
Proof.
  unfold id_is. split.
  - destruct (get "_id" d); try discriminate.
    intros H. apply N.eqb_eq in H. congruence.
  - intros ->. apply N.eqb_refl.
Qed.

(** An update leaves the identifier of the record alone. *)
Lemma id_is_after_update (oid : N) (b : object) (now : Z) (d : object) :
  id_is oid (apply_update (collect_updates b) now d) = id_is oid d.
Proof.
  unfold id_is. rewrite get_after_update. reflexivity.
Qed.

Lemma update_first_by_find (oid : N) (u : object) (now : Z) (l : list object) :
  fst (update_first oid u now l)
  = option_map (apply_update u now) (List.find (id_is oid) l).
Proof.
  induction l as [|e l IH]; simpl; [reflexivity|].
  destruct (id_is oid e); [reflexivity|].
  destruct (update_first oid u now l). exact IH.
Qed.

Lemma delete_first_by_find (oid : N) (l : list object) :
  match List.find (id_is oid) l with
  | None => delete_first oid l = (0, l)
  | Some d => exists before after,
      l = before ++ d :: after /\
      forallb (fun x => negb (id_is oid x)) before = true /\
      delete_first oid l = (1, before ++ after)
  end.
Proof.
  induction l as [|e l IH]; simpl; [reflexivity|].
  destruct (id_is oid e) eqn:He.
  - exists [], l. auto.
  - destruct (List.find (id_is oid) l) as [d|].
    + destruct IH as (before & after & -> & Hb & ->).
      exists (e :: before), after. simpl. rewrite He. auto.
    + rewrite IH. reflexivity.
Qed.

(* ================================================================= *)
(** ** Update: what is refused, and what is not found *)

Lemma no_updates_collected (b : object) :
  Nat.eqb (List.length (keys (collect_updates b))) 0
  = negb (some_allowed_field b).
Proof.
  unfold collect_updates, some_allowed_field, allowed. simpl.
  destruct (defined (get "name" b)), (defined (get "category" b)),
    (defined (get "price" b)), (defined (get "stock" b)); reflexivity.
Qed.

Lemma update_check (b : object) (k : string) :
  includes k allowed = true ->
  defined (get k (collect_updates b))
  && negb (typeof_number (get k (collect_updates b)))
  = negb (number_or_absent (get k b)).
Proof.
  intros Hk. rewrite get_collect_updates, Hk. unfold number_or_absent.
  destruct (defined (get k b)), (typeof_number (get k b)); reflexivity.
Qed.

(** X1. With the collection set, update runs its checks on the identifier
    and on the body in a fixed order: an identifier that is not valid, no
    allowed field defined in the body, a [price] that is defined and is
    not a number, a [stock] that is defined and is not a number. The first
    that fails gives the answer, 400 with its message, and the collection
    is as it was; when none fails the store is called once, with the
    allowed fields of the body for [$set], and the answer is not 400. *)
Theorem update_validation (P : Platform) (env : Env) (id : string)
  (b : object) (coll : Collection) :
  match update_error id b with
  | Some msg =>
      app env (PUT_product id b) (Some coll)
      = (status_json 400 (error msg), Some coll)
  | None =>
      exists res coll',
        app env (PUT_product id b) (Some coll) = (res, Some coll') /\
        status res <> 400 /\
        history coll'
        = CallFindOneAndUpdate (ObjectId_new id) (collect_updates b)
            :: history coll
  end.
Proof.
  simpl. unfold update_error, put_product.
  destruct (negb (ObjectId_isValid id)); [reflexivity|].
  rewrite no_updates_collected.
  destruct (negb (some_allowed_field b)); [reflexivity|].
  rewrite !update_check by reflexivity.
  destruct (negb (number_or_absent (get "price" b))); [reflexivity|].
  destruct (negb (number_or_absent (get "stock" b))); [reflexivity|].
  unfold findOneAndUpdate.
  destruct (update_first _ _ _ _) as [[d'|] l]; simpl;
    eexists; eexists; (split; [reflexivity|]); split;
    solve [discriminate | reflexivity].
Qed.

(** X2. With the collection set and an update that passes validation: the
    answer is 404 [{ error: "Not found" }] exactly when no record carries
    the identifier, and then the records are what they were; it is 200
    otherwise. *)
Theorem update_not_found (P : Platform) (env : Env) (id : string)
  (b : object) (coll : Collection) :
  update_error id b = None ->
  exists res coll',
    app env (PUT_product id b) (Some coll) = (res, Some coll') /\
    match List.find (id_is (ObjectId_new id)) (docs coll) with
    | None => res = status_json 404 (error "Not found") /\
              docs coll' = docs coll
    | Some d => res = json (VObject
                              (apply_update (collect_updates b)
                                 (store_now env) d))
    end.
Proof.
  intros Hok. simpl. unfold update_error in Hok. unfold put_product.
  destruct (negb (ObjectId_isValid id)); [discriminate|].
  rewrite no_updates_collected.
  destruct (negb (some_allowed_field b)); [discriminate|].
  rewrite !update_check by reflexivity.
  destruct (negb (number_or_absent (get "price" b))); [discriminate|].
  destruct (negb (number_or_absent (get "stock" b))); [discriminate|].
  unfold findOneAndUpdate.
  pose proof (update_first_by_find (ObjectId_new id) (collect_updates b)
                (store_now env) (docs coll)) as Hfind.
  destruct (update_first _ _ _ _) as [[d'|] l] eqn:Hu; simpl in *;
    eexists; eexists; (split; [reflexivity|]);
    destruct (List.find _ _) as [d|]; simpl in Hfind; try discriminate.
  - inversion Hfind. reflexivity.
  - split; [reflexivity|]. simpl.
    exact (update_first_missing _ _ _ _ _ Hu).
Qed.

Lemma update_not_found_witness :
  let b := [("stock", VNumber (Finite 100))] in
  let id := "0000000000000000000000ff" in
  update_error id b = None /\
  exists res coll',
    app Sample.env (PUT_product id b) (Some Sample.shop) = (res, Some coll') /\
    match List.find (id_is (ObjectId_new id)) (docs Sample.shop) with
    | None => res = status_json 404 (error "Not found") /\
              docs coll' = docs Sample.shop
    | Some d => res = json (VObject
                              (apply_update (collect_updates b)
                                 (store_now Sample.env) d))
    end.
Proof.
  intros b id. split; [reflexivity|].
  exact (update_not_found Sample.platform Sample.env id b Sample.shop eq_refl).
Defined.

(* ================================================================= *)
(** ** Round trips *)

(** X3. With the collection set: a create request that passes validation
    and receives an identifier that no stored record carries answers 201
    with a record, and a get-by-id with a string that [new ObjectId] reads
    as that identifier then answers 200 with the same record. *)
Theorem create_then_get (P : Platform) (env env' : Env) (b : object)
  (id : string) (coll : Collection) :
  truthy (get "name" b) && truthy (get "category" b)
  && typeof_number (get "price" b) = true ->
  existsb (id_is (fresh_id env)) (docs coll) = false ->
  ObjectId_isValid id = true ->
  ObjectId_new id = fresh_id env ->
  fst (serve [(env, POST_products b); (env', GET_product id)] (Some coll))
  = [status_json 201 (VObject (created env b));
     json (VObject (created env b))].
Proof.
  intros Hvalid Hfresh Hid Hnew. simpl.
  unfold post_products, insertOne.
  apply andb_true_iff in Hvalid. destruct Hvalid as [Hvalid Hp].
  apply andb_true_iff in Hvalid. destruct Hvalid as [Hn Hc].
  rewrite Hn, Hc, Hp, Hfresh. simpl.
  unfold get_product, findOne. rewrite Hid, Hnew. simpl.
  rewrite (find_after_prefix (fresh_id env) (docs coll) []).
  - reflexivity.
  - clear -Hfresh. induction (docs coll) as [|e l IH]; simpl in *;
      [reflexivity|].
    apply orb_false_iff in Hfresh. destruct Hfresh as [-> Hl].
    exact (IH Hl).
  - unfold id_is. simpl. apply N.eqb_refl.
Qed.

Lemma create_then_get_witness :
  let b := [("name", VString "Cap"); ("category", VString "Stationery");
            ("price", VNumber (Finite (1 # 4)))] in
  let id := "000000000000000000001000" in
  truthy (get "name" b) && truthy (get "category" b)
  && typeof_number (get "price" b) = true /\
  existsb (id_is (fresh_id Sample.env)) (docs Sample.shop) = false /\
  ObjectId_isValid id = true /\
  ObjectId_new id = fresh_id Sample.env /\
  fst (serve [(Sample.env, POST_products b); (Sample.env, GET_product id)]
         (Some Sample.shop))
  = [status_json 201 (VObject (created Sample.env b));
     json (VObject (created Sample.env b))].
Proof.
  intros b id. repeat (split; [reflexivity|]).
  exact (create_then_get Sample.platform Sample.env Sample.env b id
           Sample.shop eq_refl eq_refl eq_refl eq_refl).
Defined.

(** X4. With the collection set and an identifier from the driver that a
    stored record already carries, a create request that passes
    validation answers 500 [{ error: "Server error" }]: the store was
    called, and the records are what they were. *)
Theorem create_duplicate_id (P : Platform) (env : Env) (b : object)
  (coll : Collection) :
  truthy (get "name" b) && truthy (get "category" b)
  && typeof_number (get "price" b) = true ->
  existsb (id_is (fresh_id env)) (docs coll) = true ->
  app env (POST_products b) (Some coll)
  = (status_json 500 (error "Server error"),
     Some {| docs := docs coll;
             history := CallInsertOne (new_product env b) :: history coll |}).
Proof.
  intros Hvalid Hdup. simpl. unfold post_products, insertOne.
  apply andb_true_iff in Hvalid. destruct Hvalid as [Hvalid Hp].
  apply andb_true_iff in Hvalid. destruct Hvalid as [Hn Hc].
  rewrite Hn, Hc, Hp, Hdup. reflexivity.
Qed.

Lemma create_duplicate_id_witness :
  let b := [("name", VString "Cap"); ("category", VString "Stationery");
            ("price", VNumber (Finite (1 # 4)))] in
  let env := {| now := 5; store_now := 6; fresh_id := 257 |} in
  truthy (get "name" b) && truthy (get "category" b)
  && typeof_number (get "price" b) = true /\
  existsb (id_is (fresh_id env)) (docs Sample.shop) = true /\
  app env (POST_products b) (Some Sample.shop)
  = (status_json 500 (error "Server error"),
     Some {| docs := docs Sample.shop;
             history := CallInsertOne (new_product env b)
                          :: history Sample.shop |}).
Proof.
  intros b env. repeat (split; [reflexivity|]).
  exact (create_duplicate_id Sample.platform env b Sample.shop
           eq_refl eq_refl).
Defined.

Lemma put_product_valid_id (P : Platform) (env : Env) (id : string)
  (b : object) (coll : Collection) :
  status (fst (put_product env id b coll)) = 200 ->
  ObjectId_isValid id = true.
Proof.
  unfold put_product. destruct (ObjectId_isValid id); simpl;
    [reflexivity|discriminate].
Qed.

(** X5. With the collection set, when an update answers 200, a get-by-id
    on the same identifier right after it gives the same answer: 200 with
    the record as updated. *)
Theorem update_then_get (P : Platform) (env env' : Env) (id : string)
  (b : object) (coll : Collection) (res : Response) (coll' : Collection) :
  app env (PUT_product id b) (Some coll) = (res, Some coll') ->
  status res = 200 ->
  fst (app env' (GET_product id) (Some coll')) = res.
Proof.
  simpl. intros Hrun Hs.
  destruct (put_product env id b coll) as [res0 coll0] eqn:Hput.
  inversion Hrun; subst res0 coll0.
  assert (Hid : ObjectId_isValid id = true).
  { apply (put_product_valid_id P env id b coll). rewrite Hput. exact Hs. }
  destruct (put_product_ok _ _ _ _ _ _ _ Hput Hs) as (d' & Hu & ->).
  destruct (update_first_found _ _ _ _ _ _ Hu)
    as (d & before & after & _ & Hl' & -> & Hd & Hb).
  unfold get_product, findOne. rewrite Hid. simpl. rewrite Hl'.
  rewrite (find_after_prefix _ before after _ Hb).
  - reflexivity.
  - rewrite id_is_after_update. exact Hd.
Qed.

Lemma update_then_get_witness :
  let b := [("stock", VNumber (Finite 100))] in
  let pen' := apply_update b (store_now Sample.env) Sample.pen in
  let res := json (VObject pen') in
  let coll' := {| docs := [pen'; Sample.ink];
                  history := [CallFindOneAndUpdate 256 b] |} in
  app Sample.env (PUT_product Sample.pen_id b) (Some Sample.shop)
  = (res, Some coll') /\
  status res = 200 /\
  fst (app Sample.env (GET_product Sample.pen_id) (Some coll')) = res.
Proof.
  intros b pen' res coll'. split; [reflexivity|]. split; [reflexivity|].
  exact (update_then_get Sample.platform Sample.env Sample.env Sample.pen_id
           b Sample.shop res coll' eq_refl eq_refl).
Defined.

(* ================================================================= *)
(** ** Delete *)

(** X6. With the collection set and a valid identifier: when no record
    carries it, delete answers 404 [{ error: "Not found" }] and the
    records are what they were; otherwise it answers 200
    [{ deleted: true, id }] with the identifier as the request wrote it,
    and the first record that carries it is taken out, every other record
    staying in place. *)
Theorem delete_contract (P : Platform) (env : Env) (id : string)
  (coll : Collection) :
  ObjectId_isValid id = true ->
  let after_call l :=
    Some {| docs := l;
            history := CallDeleteOne (ObjectId_new id) :: history coll |} in
  match List.find (id_is (ObjectId_new id)) (docs coll) with
  | None =>
      app env (DELETE_product id) (Some coll)
      = (status_json 404 (error "Not found"), after_call (docs coll))
  | Some d =>
      exists before after,
        docs coll = before ++ d :: after /\
        forallb (fun x => negb (id_is (ObjectId_new id) x)) before = true /\
        app env (DELETE_product id) (Some coll)
        = (json (VObject [("deleted", VBool true); ("id", VString id)]),
           after_call (before ++ after))
  end.
Proof.
  intros Hid after_call. subst after_call. simpl.
  unfold delete_product, deleteOne. rewrite Hid. simpl.
  pose proof (delete_first_by_find (ObjectId_new id) (docs coll)) as Hdel.
  destruct (List.find _ _) as [d|].
  - destruct Hdel as (before & after & Hl & Hb & Hdel).
    exists before, after. rewrite Hdel. auto.
  - rewrite Hdel. reflexivity.
Qed.

Lemma delete_contract_witness :
  ObjectId_isValid Sample.pen_id = true /\
  exists before after,
    docs Sample.shop = before ++ Sample.pen :: after /\
    forallb (fun x => negb (id_is (ObjectId_new Sample.pen_id) x)) before
    = true /\
    app Sample.env (DELETE_product Sample.pen_id) (Some Sample.shop)
    = (json (VObject [("deleted", VBool true);
                      ("id", VString Sample.pen_id)]),
       Some {| docs := before ++ after;
               history := CallDeleteOne (ObjectId_new Sample.pen_id)
                            :: history Sample.shop |}).
Proof.
  split; [reflexivity|].
  exact (delete_contract Sample.platform Sample.env Sample.pen_id Sample.shop
           eq_refl).
Defined.

(* ================================================================= *)
(** ** What the routes keep of the collection *)

Lemma NoDup_snoc (A : Type) (l : list A) (x : A) :
  NoDup l -> ~ In x l -> NoDup (l ++ [x]).
Proof.
  induction 1 as [|a l Ha Hl IH]; simpl; intros Hx.
  - constructor; [tauto|constructor].
  - constructor.
    + rewrite in_app_iff. simpl. intuition congruence.
    + apply IH. tauto.
Qed.

Lemma fresh_not_in_ids (oid : N) (l : list object) :
  existsb (id_is oid) l = false -> ~ In (VObjectId oid) (ids l).
Proof.
  induction l as [|e l IH]; simpl; [tauto|].
  intros H. apply orb_false_iff in H. destruct H as [He Hl].
  intros [Heq|Hin]; [|exact (IH Hl Hin)].
  apply id_is_get in Heq. congruence.
Qed.

Lemma shape_created (env : Env) (b : object) :
  typeof_number (get "price" b) = true ->
  product_shape (created env b) = true.
Proof.
  intros Hp. unfold product_shape, created, new_product. simpl.
  rewrite Hp. destruct (typeof_number (get "stock" b)) eqn:Hs; simpl;
    [rewrite Hs|]; reflexivity.
Qed.

Lemma shape_after_update (b : object) (now : Z) (d : object) :
  number_or_absent (get "price" b) = true ->
  number_or_absent (get "stock" b) = true ->
  product_shape d = true ->
  product_shape (apply_update (collect_updates b) now d) = true.
Proof.
  unfold product_shape, number_or_absent. intros Hp Hs Hd.
  apply andb_true_iff in Hd. destruct Hd as [Hd Hdate].
  apply andb_true_iff in Hd. destruct Hd as [Hd Hstock].
  apply andb_true_iff in Hd. destruct Hd as [Hid Hprice].
  rewrite !get_after_update. unfold field_after_update. simpl.
  rewrite Hid, Hdate.
  destruct (defined (get "price" b)), (defined (get "stock" b));
    simpl in *; rewrite ?Hp, ?Hs, ?Hprice, ?Hstock; reflexivity.
Qed.

Lemma delete_first_count (oid : N) (l : list object) :
  fst (delete_first oid l) = 0 -> snd (delete_first oid l) = l.
Proof.
  induction l as [|e l IH]; simpl; [reflexivity|].
  destruct (id_is oid e); simpl; [discriminate|].
  destruct (delete_first oid l) as [n l']. simpl in *.
  intros Hn. rewrite (IH Hn). reflexivity.
Qed.

(** One request keeps the collection well kept. *)
Lemma app_keeps (P : Platform) (env : Env) (req : Request)
  (coll : Collection) :
  well_kept coll ->
  exists coll',
    snd (app env req (Some coll)) = Some coll' /\ well_kept coll'.
Proof.
  intros [Hshape Hids]. destruct req as [|q|id|b|id b|id]; simpl.
  - exists coll. split; [reflexivity|split; assumption].
  - unfold get_products. destruct (build_filter q); simpl;
      eexists; (split; [reflexivity|split; assumption]).
  - unfold get_product. destruct (negb (ObjectId_isValid id)); simpl;
      [eexists; split; [reflexivity|split; assumption]|].
    destruct (List.find _ _); simpl;
      eexists; (split; [reflexivity|split; assumption]).
  - unfold post_products, insertOne.
    destruct (truthy (get "name" b)), (truthy (get "category" b)),
      (typeof_number (get "price" b)) eqn:Hp; simpl;
      try (eexists; split; [reflexivity|split; assumption]).
    destruct (existsb _ _) eqn:Hfresh; simpl;
      eexists; (split; [reflexivity|]); split; simpl; try assumption.
    + rewrite forallb_app, Hshape.
      change (forallb product_shape [created env b] = true).
      cbn [forallb]. rewrite andb_true_r. exact (shape_created env b Hp).
    + unfold ids. rewrite map_app. simpl.
      apply NoDup_snoc; [exact Hids|].
      exact (fresh_not_in_ids _ _ Hfresh).
  - unfold put_product.
    destruct (negb (ObjectId_isValid id)); simpl;
      [eexists; split; [reflexivity|split; assumption]|].
    rewrite no_updates_collected.
    destruct (negb (some_allowed_field b)); simpl;
      [eexists; split; [reflexivity|split; assumption]|].
    rewrite !update_check by reflexivity.
    destruct (number_or_absent (get "price" b)) eqn:Hp; simpl;
      [|eexists; split; [reflexivity|split; assumption]].
    destruct (number_or_absent (get "stock" b)) eqn:Hs; simpl;
      [|eexists; split; [reflexivity|split; assumption]].
    unfold findOneAndUpdate.
    destruct (update_first _ _ _ _) as [[d'|] l] eqn:Hu; simpl;
      eexists; (split; [reflexivity|]); simpl.
    + destruct (update_first_found _ _ _ _ _ _ Hu)
        as (d & before & after & Hl & -> & -> & _ & _).
      rewrite Hl in Hshape, Hids. rewrite forallb_app in Hshape.
      apply andb_true_iff in Hshape. destruct Hshape as [Hb Hrest].
      simpl in Hrest. apply andb_true_iff in Hrest.
      destruct Hrest as [Hd Ha].
      split; simpl.
      * rewrite forallb_app, Hb. simpl.
        rewrite (shape_after_update b _ d Hp Hs Hd). exact Ha.
      * unfold ids in *. rewrite map_app in *. simpl in *.
        rewrite get_after_update. exact Hids.
    + rewrite (update_first_missing _ _ _ _ _ Hu). split; assumption.
  - unfold delete_product, deleteOne.
    destruct (negb (ObjectId_isValid id)); simpl;
      [eexists; split; [reflexivity|split; assumption]|].
    pose proof (delete_first_by_find (ObjectId_new id) (docs coll)) as Hdel.
    destruct (List.find _ _) as [d|].
    + destruct Hdel as (before & after & Hl & _ & ->). simpl.
      eexists. split; [reflexivity|]. simpl.
      rewrite Hl in Hshape, Hids. rewrite forallb_app in Hshape.
      apply andb_true_iff in Hshape. destruct Hshape as [Hb Hrest].
      simpl in Hrest. apply andb_true_iff in Hrest.
      destruct Hrest as [_ Ha].
      split; simpl.
      * rewrite forallb_app, Hb. exact Ha.
      * unfold ids in *. rewrite map_app in *. simpl in Hids.
        exact (NoDup_remove_1 _ _ _ Hids).
    + rewrite Hdel. simpl. eexists. split; [reflexivity|split; assumption].
Qed.

(** X7. From a collection in which every record has an [ObjectId] for
    [_id], numbers for [price] and [stock] and a date for [createdAt], and
    in which no two records carry the same [_id], any sequence of requests
    leads to a collection of which the same is true. *)
Theorem records_well_kept (P : Platform) (reqs : list (Env * Request))
  (coll : Collection) :
  well_kept coll ->
  exists coll',
    snd (serve reqs (Some coll)) = Some coll' /\ well_kept coll'.
Proof.
  revert coll. induction reqs as [|[env req] reqs IH]; intros coll Hk.
  - exists coll. split; [reflexivity|exact Hk].
  - simpl. destruct (app_keeps P env req coll Hk) as (coll1 & Happ & Hk1).
    destruct (app env req (Some coll)) as [res pc]. simpl in Happ. subst pc.
    destruct (IH coll1 Hk1) as (coll' & Hserve & Hk').
    destruct (serve reqs (Some coll1)) as [ress pc']. simpl in *.
    exists coll'. split; assumption.
Qed.

Lemma records_well_kept_witness :
  let reqs :=
    [(Sample.env, POST_products [("name", VString "Cap");
                                 ("category", VString "Stationery");
                                 ("price", one);
                                 ("stock", VString "many")]);
     (Sample.env, PUT_product Sample.pen_id [("stock", VNumber (Finite 7))]);
     (Sample.env, DELETE_product "000000000000000000000101")] in
  well_kept Sample.shop /\
  exists coll',
    snd (serve reqs (Some Sample.shop)) = Some coll' /\ well_kept coll'.
Proof.
  intros reqs.
  assert (Hshop : well_kept Sample.shop).
  { split; [reflexivity|].
    repeat constructor; simpl; intuition discriminate. }
  split; [exact Hshop|].
  exact (records_well_kept Sample.platform reqs Sample.shop Hshop).
Defined.

Lemma find_absent (oid : N) (l : list object) :
  (forall x, In x l -> id_is oid x = false) ->
  List.find (id_is oid) l = None.
Proof.
  induction l as [|e l IH]; simpl; intros H; [reflexivity|].
  rewrite (H e (or_introl eq_refl)). apply IH. intros x Hx. apply H. auto.
Qed.

(** X8. With the collection set and no two records under one [_id]: once
    a delete has answered 200, no record carries the identifier any more;
    a get-by-id and a second delete on it answer 404, and no update on it
    answers 200. *)
Theorem delete_then_gone (P : Platform) (env env' : Env) (id : string)
  (coll : Collection) (res : Response) (coll' : Collection) :
  NoDup (ids (docs coll)) ->
  app env (DELETE_product id) (Some coll) = (res, Some coll') ->
  status res = 200 ->
  List.find (id_is (ObjectId_new id)) (docs coll') = None /\
  status (fst (app env' (GET_product id) (Some coll'))) = 404 /\
  status (fst (app env' (DELETE_product id) (Some coll'))) = 404 /\
  forall b, status (fst (app env' (PUT_product id b) (Some coll'))) <> 200.
Proof.
  intros Hids Hrun Hs. simpl in Hrun.
  assert (Hid : ObjectId_isValid id = true).
  { unfold delete_product in Hrun. destruct (ObjectId_isValid id);
      [reflexivity|]. simpl in Hrun. inversion Hrun; subst. discriminate. }
  unfold delete_product, deleteOne in Hrun. rewrite Hid in Hrun.
  simpl in Hrun.
  pose proof (delete_first_by_find (ObjectId_new id) (docs coll)) as Hdel.
  assert (Hgone : List.find (id_is (ObjectId_new id)) (docs coll') = None).
  { destruct (List.find _ (docs coll)) as [d|] eqn:Hfind.
    - destruct Hdel as (before & after & Hl & Hb & Hdel).
      rewrite Hdel in Hrun. inversion Hrun; subst res coll'. simpl.
      apply find_prefix in Hfind.
      destruct Hfind as (_ & _ & _ & _ & Hd).
      apply find_absent. intros x Hx.
      apply in_app_or in Hx. destruct Hx as [Hx|Hx].
      + rewrite forallb_forall in Hb. specialize (Hb x Hx).
        destruct (id_is _ x); [discriminate|reflexivity].
      + destruct (id_is (ObjectId_new id) x) eqn:Hxid; [|reflexivity].
        exfalso. rewrite Hl in Hids. unfold ids in Hids.
        rewrite map_app in Hids. simpl in Hids.
        apply NoDup_remove_2 in Hids. apply Hids.
        apply in_or_app. right.
        apply id_is_get in Hd. apply id_is_get in Hxid.
        rewrite Hd, <- Hxid. apply in_map. exact Hx.
    - rewrite Hdel in Hrun. inversion Hrun; subst. discriminate. }
  split; [exact Hgone|]. simpl.
  unfold get_product, delete_product, findOne, deleteOne.
  rewrite Hid. simpl. rewrite Hgone.
  pose proof (delete_first_by_find (ObjectId_new id) (docs coll')) as Hd2.
  rewrite Hgone in Hd2. rewrite Hd2. simpl.
  repeat split.
  intros b. unfold put_product. rewrite Hid. simpl.
  destruct (Nat.eqb _ 0); [discriminate|].
  destruct (defined (get "price" _) && _); [discriminate|].
  destruct (defined (get "stock" _) && _); [discriminate|].
  unfold findOneAndUpdate.
  pose proof (update_first_by_find (ObjectId_new id) (collect_updates b)
                (store_now env') (docs coll')) as Hu.
  rewrite Hgone in Hu.
  destruct (update_first _ _ _ _) as [[d'|] l]; simpl in *;
    discriminate.
Qed.

Lemma delete_then_gone_witness :
  let res := json (VObject [("deleted", VBool true);
                            ("id", VString Sample.pen_id)]) in
  let coll' := {| docs := [Sample.ink]; history := [CallDeleteOne 256] |} in
  NoDup (ids (docs Sample.shop)) /\
  app Sample.env (DELETE_product Sample.pen_id) (Some Sample.shop)
  = (res, Some coll') /\
  status res = 200 /\
  List.find (id_is (ObjectId_new Sample.pen_id)) (docs coll') = None /\
  status (fst (app Sample.env (GET_product Sample.pen_id) (Some coll'))) = 404
  /\
  status (fst (app Sample.env (DELETE_product Sample.pen_id) (Some coll')))
  = 404 /\
  forall b,
    status (fst (app Sample.env (PUT_product Sample.pen_id b) (Some coll')))
    <> 200.
Proof.
  intros res coll'.
  assert (Hids : NoDup (ids (docs Sample.shop))).
  { repeat constructor; simpl; intuition discriminate. }
  split; [exact Hids|]. split; [reflexivity|]. split; [reflexivity|].
  exact (delete_then_gone Sample.platform Sample.env Sample.env Sample.pen_id
           Sample.shop res coll' Hids eq_refl eq_refl).
Defined.

(* ================================================================= *)
(** ** The calls to the store *)

(** X9. With the collection set, a request either leaves the collection
    exactly as it was or makes one call to the store, recorded at the head
    of the history. An answer 400 comes before any call; after an answer
    404, and after any of the three routes that read, the records are what
    they were. *)
Theorem one_store_call (P : Platform) (env : Env) (req : Request)
  (coll : Collection) (res : Response) (coll' : Collection) :
  app env req (Some coll) = (res, Some coll') ->
  (coll' = coll \/ exists c, history coll' = c :: history coll) /\
  (status res = 400 -> coll' = coll) /\
  (status res = 404 -> docs coll' = docs coll) /\
  (reads req = true -> docs coll' = docs coll).
Proof.
  destruct req as [|q|id|b|id b|id]; simpl; intros Hrun.
  - inversion Hrun; subst. auto.
  - unfold get_products in Hrun.
    destruct (build_filter q) as [res0|f] eqn:Hf; simpl in Hrun;
      inversion Hrun; subst; simpl.
    + auto.
    + repeat split; eauto; discriminate.
  - unfold get_product, findOne in Hrun.
    destruct (negb (ObjectId_isValid id)); simpl in Hrun;
      [inversion Hrun; subst; auto|].
    destruct (List.find _ _); inversion Hrun; subst; simpl;
      repeat split; eauto; discriminate.
  - unfold post_products, insertOne in Hrun.
    destruct (negb (truthy (get "name" b)) || negb (truthy (get "category" b))
              || negb (typeof_number (get "price" b)));
      [inversion Hrun; subst; auto|].
    destruct (existsb _ _); inversion Hrun; subst; simpl;
      repeat split; eauto; discriminate.
  - unfold put_product, findOneAndUpdate in Hrun.
    destruct (negb (ObjectId_isValid id)); [inversion Hrun; subst; auto|].
    destruct (Nat.eqb _ 0); [inversion Hrun; subst; auto|].
    destruct (defined (get "price" _) && _); [inversion Hrun; subst; auto|].
    destruct (defined (get "stock" _) && _); [inversion Hrun; subst; auto|].
    destruct (update_first _ _ _ _) as [[d'|] l] eqn:Hu;
      inversion Hrun; subst; simpl;
      repeat split; eauto; try discriminate.
    intros _. exact (update_first_missing _ _ _ _ _ Hu).
  - unfold delete_product, deleteOne in Hrun.
    destruct (negb (ObjectId_isValid id)); [inversion Hrun; subst; auto|].
    pose proof (delete_first_count (ObjectId_new id) (docs coll)) as Hcount.
    destruct (delete_first _ _) as [n l]. simpl in Hcount.
    destruct (Nat.eqb_spec n 0) as [Hn|Hn]; inversion Hrun; subst; simpl;
      repeat split; eauto; try discriminate.
Qed.

Lemma one_store_call_witness :
  let coll' := {| docs := docs Sample.shop;
                  history := [CallFindOne 255] |} in
  let res := status_json 404 (error "Not found") in
  app Sample.env (GET_product "0000000000000000000000ff") (Some Sample.shop)
  = (res, Some coll') /\
  (coll' = Sample.shop \/ exists c, history coll' = c :: history Sample.shop)
  /\
  (status res = 400 -> coll' = Sample.shop) /\
  (status res = 404 -> docs coll' = docs Sample.shop) /\
  (reads (GET_product "0000000000000000000000ff") = true ->
   docs coll' = docs Sample.shop).
Proof.
  intros coll' res. split; [reflexivity|].
  exact (one_store_call Sample.platform Sample.env
           (GET_product "0000000000000000000000ff") Sample.shop res coll'
           eq_refl).
Defined.

(* ================================================================= *)
(** ** Start-up and readiness *)

Lemma app_once_set (P : Platform) (env : Env) (req : Request)
  (coll : Collection) :
  exists res coll',
    app env req (Some coll) = (res, Some coll') /\ status res <> 503.
Proof.
  destruct req as [|q|id|b|id b|id]; simpl.
  - eexists; eexists; split; [reflexivity|discriminate].
  - unfold get_products. destruct (build_filter q) as [res0|f] eqn:Hf.
    + unfold build_filter in Hf. destruct (query_minPrice q); [|discriminate].
      destruct (isNaN _); inversion Hf; subst.
      eexists; eexists; split; [reflexivity|discriminate].
    + eexists; eexists; split; [reflexivity|discriminate].
  - unfold get_product. destruct (negb (ObjectId_isValid id)); simpl;
      [eexists; eexists; split; [reflexivity|discriminate]|].
    destruct (List.find _ _);
      eexists; eexists; (split; [reflexivity|discriminate]).
  - unfold post_products, insertOne.
    destruct (negb (truthy (get "name" b)) || negb (truthy (get "category" b))
              || negb (typeof_number (get "price" b)));
      [eexists; eexists; split; [reflexivity|discriminate]|].
    destruct (existsb _ _);
      eexists; eexists; (split; [reflexivity|discriminate]).
  - unfold put_product, findOneAndUpdate.
    destruct (negb (ObjectId_isValid id));
      [eexists; eexists; split; [reflexivity|discriminate]|].
    destruct (Nat.eqb _ 0);
      [eexists; eexists; split; [reflexivity|discriminate]|].
    destruct (defined (get "price" _) && _);
      [eexists; eexists; split; [reflexivity|discriminate]|].
    destruct (defined (get "stock" _) && _);
      [eexists; eexists; split; [reflexivity|discriminate]|].
    destruct (update_first _ _ _ _) as [[d'|] l];
      eexists; eexists; (split; [reflexivity|discriminate]).
  - unfold delete_product, deleteOne.
    destruct (negb (ObjectId_isValid id));
      [eexists; eexists; split; [reflexivity|discriminate]|].
    destruct (delete_first _ _) as [n l].
    destruct (Nat.eqb n 0);
      eexists; eexists; (split; [reflexivity|discriminate]).
Qed.

Lemma serve_once_set (P : Platform) (reqs : list (Env * Request))
  (coll : Collection) :
  Forall (fun res => status res <> 503) (fst (serve reqs (Some coll))) /\
  exists coll', snd (serve reqs (Some coll)) = Some coll'.
Proof.
  revert coll. induction reqs as [|[env req] reqs IH]; intros coll; simpl.
  - split; [constructor|eauto].
  - destruct (app_once_set P env req coll) as (res & coll1 & -> & Hs).
    destruct (IH coll1) as [Hall Hset].
    destruct (serve reqs (Some coll1)) as [ress pc]. simpl in *.
    split; [constructor; assumption|exact Hset].
Qed.

(** X10. The process listens only when [MONGO_URI] is set and not empty,
    [connectDB] has assigned the collection and [app.listen] has
    succeeded, on the port of [PORT] or 3000; in every other case it has
    exited with code 1. No request changes [productsCollection] back, so a
    process that was started never answers 503, whatever the requests. *)
Theorem started_is_ready (P : Platform) (env_PORT env_MONGO_URI : option string)
  (connect : string -> option Collection) (listen : Port -> bool)
  (reqs : list (Env * Request)) :
  let p := main env_PORT env_MONGO_URI connect listen in
  (p = Exited 1 \/
   exists uri coll,
     env_MONGO_URI = Some uri /\ uri <> "" /\ connect uri = Some coll /\
     listen (PORT env_PORT) = true /\
     p = Listening (PORT env_PORT) (Some coll)) /\
  Forall (fun res => status res <> 503) (serve_process reqs p).
Proof.
  cbv zeta. unfold main.
  destruct env_MONGO_URI as [uri|]; [|split; [auto|constructor]].
  destruct uri as [|c uri]; [split; [auto|constructor]|].
  change (negb (nonempty (String c uri))) with false. cbv iota.
  destruct (connect (String c uri)) as [coll|] eqn:Hc;
    [|split; [auto|constructor]].
  destruct (listen (PORT env_PORT)) eqn:Hl; [|split; [auto|constructor]].
  split.
  - right. exists (String c uri), coll. repeat split; auto. discriminate.
  - simpl. apply serve_once_set.
Qed.

(* ================================================================= *)
(** ** List: which records, and in which order *)

Section SortMore.
Context {P : Platform}.

Lemma Permutation_insert_sorted (s : Sort) (d : object) (l : list object) :
  Permutation (insert_sorted s d l) (d :: l).
Proof.
  induction l as [|e l IH]; simpl.
  - apply Permutation_refl.
  - destruct (sort_leb s d e).
    + apply Permutation_refl.
    + apply perm_trans with (e :: d :: l).
      * apply perm_skip. exact IH.
      * apply perm_swap.
Qed.

Lemma Permutation_sort_docs (s : Sort) (l : list object) :
  Permutation (sort_docs s l) l.
Proof.
  induction l as [|e l IH]; simpl.
  - apply perm_nil.
  - apply perm_trans with (e :: sort_docs s l).
    + apply Permutation_insert_sorted.
    + apply perm_skip. exact IH.
Qed.

(** What a cursor returns, as the records seen through the projection. *)
Lemma run_cursor_view (q : Query) (f : Filter) (l : list object) :
  run_cursor (list_cursor q f) l
  = map (view q)
      (match build_sort q with
       | Some s => sort_docs s (filter (matches f) l)
       | None => filter (matches f) l
       end).
Proof.
  unfold run_cursor, list_cursor, view. simpl.
  destruct (build_projection q); [reflexivity|].
  symmetry. apply map_id.
Qed.

Hypothesis leb_total :
  forall a b, bson_leb a b = true \/ bson_leb b a = true.

Lemma sort_leb_total (s : Sort) (a b : object) :
  sort_leb s a b = true \/ sort_leb s b a = true.
Proof.
  unfold sort_leb. destruct (0 <=? snd s)%Z; [apply leb_total|].
  destruct (leb_total (get (fst s) a) (get (fst s) b)); auto.
Qed.

Lemma HdRel_insert_sorted (s : Sort) (d e : object) (l : list object) :
  sort_leb s e d = true ->
  HdRel (fun a b => sort_leb s a b = true) e l ->
  HdRel (fun a b => sort_leb s a b = true) e (insert_sorted s d l).
Proof.
  intros Hed Hl. destruct l as [|x l]; simpl.
  - constructor. exact Hed.
  - destruct (sort_leb s d x); constructor; [exact Hed|].
    inversion Hl. assumption.
Qed.

Lemma Sorted_insert_sorted (s : Sort) (d : object) (l : list object) :
  Sorted (fun a b => sort_leb s a b = true) l ->
  Sorted (fun a b => sort_leb s a b = true) (insert_sorted s d l).
Proof.
  induction 1 as [|e l Hl IH He]; simpl.
  - repeat constructor.
  - destruct (sort_leb s d e) eqn:Hde.
    + constructor; [constructor; assumption|]. constructor. exact Hde.
    + constructor; [exact IH|].
      apply HdRel_insert_sorted; [|exact He].
      destruct (sort_leb_total s d e); congruence.
Qed.

Lemma Sorted_sort_docs (s : Sort) (l : list object) :
  Sorted (fun a b => sort_leb s a b = true) (sort_docs s l).
Proof.
  induction l as [|e l IH]; simpl.
  - constructor.
  - apply Sorted_insert_sorted. exact IH.
Qed.

End SortMore.

(** X11. With the collection set, a list request that answers 200 returns
    the stored records that its filter matches, each once and through the
    projection: the filter holds the [category] of the query unless it is
    empty and the number that [minPrice] converts to; the list is a
    permutation of those records, and without [sort=price] it has them in
    the order of the collection. The records are left as they were. *)
Theorem list_returns_matching (P : Platform) (env : Env) (q : Query)
  (coll : Collection) (res : Response) (coll' : Collection) :
  app env (GET_products q) (Some coll) = (res, Some coll') ->
  status res = 200 ->
  exists f rs,
    filter_category f = query_category (effective q) /\
    filter_price_gte f = option_map Number_of_string (query_minPrice q) /\
    body res = VArray (map VObject rs) /\
    Permutation rs (map (view q) (filter (matches f) (docs coll))) /\
    (build_sort q = None ->
     rs = map (view q) (filter (matches f) (docs coll))) /\
    docs coll' = docs coll.
Proof.
  simpl. intros Hrun Hs.
  destruct (get_products q coll) as [res0 coll0] eqn:Hget.
  inversion Hrun; subst res0 coll0.
  destruct (get_products_ok _ _ _ _ _ Hget Hs) as (f & Hf & Hbody).
  rewrite (get_products_runs _ _ _ coll Hf) in Hget.
  inversion Hget; subst.
  exists f. eexists.
  assert (Hshape : filter_category f = query_category (effective q) /\
                   filter_price_gte f
                   = option_map Number_of_string (query_minPrice q)).
  { unfold build_filter in Hf. unfold effective. simpl.
    destruct (query_minPrice q) as [m|]; simpl.
    - destruct (isNaN (Number_of_string m)); inversion Hf; subst. auto.
    - inversion Hf; subst. auto. }
  destruct Hshape as [Hcat Hmin].
  split; [exact Hcat|]. split; [exact Hmin|].
  split; [reflexivity|]. rewrite run_cursor_view.
  repeat split.
  - apply Permutation_map. destruct (build_sort q).
    + apply Permutation_sort_docs.
    + apply Permutation_refl.
  - intros ->. reflexivity.
Qed.

Lemma list_returns_matching_witness :
  let q := {| query_category := Some "Stationery"; query_minPrice := Some "2";
              query_sort := Some "name"; query_fields := Some "name" |} in
  let f := {| filter_category := Some "Stationery";
              filter_price_gte := Some (Finite 2) |} in
  let res := json (VArray [VObject [("name", VString "Ink")]]) in
  let coll' := called (CallFind (list_cursor q f)) Sample.shop in
  app Sample.env (GET_products q) (Some Sample.shop) = (res, Some coll') /\
  status res = 200 /\
  exists f rs,
    filter_category f = query_category (effective q) /\
    filter_price_gte f = option_map Number_of_string (query_minPrice q) /\
    body res = VArray (map VObject rs) /\
    Permutation rs (map (view q) (filter (matches f) (docs Sample.shop))) /\
    (build_sort q = None ->
     rs = map (view q) (filter (matches f) (docs Sample.shop))) /\
    docs coll' = docs Sample.shop.
Proof.
  intros q f res coll'. split; [reflexivity|]. split; [reflexivity|].
  exact (list_returns_matching Sample.platform Sample.env q Sample.shop
           res coll' eq_refl eq_refl).
Defined.

(** X12. With the collection set and a total order on sort keys in the
    store: a list request with [sort=price] that answers 200 returns the
    records that its filter matches in ascending order of their stored
    price, each seen through the projection, which may hide the price. *)
Theorem list_sorted_by_price (P : Platform) (env : Env) (q : Query)
  (coll : Collection) (res : Response) (coll' : Collection) :
  (forall a b, bson_leb a b = true \/ bson_leb b a = true) ->
  query_sort q = Some "price" ->
  app env (GET_products q) (Some coll) = (res, Some coll') ->
  status res = 200 ->
  exists f ds,
    build_filter q = inr f /\
    body res = VArray (map VObject (map (view q) ds)) /\
    Permutation ds (filter (matches f) (docs coll)) /\
    Sorted (fun a b => bson_leb (get "price" a) (get "price" b) = true) ds.
Proof.
  simpl. intros Htotal Hsort Hrun Hs.
  destruct (get_products q coll) as [res0 coll0] eqn:Hget.
  inversion Hrun; subst res0 coll0.
  destruct (get_products_ok _ _ _ _ _ Hget Hs) as (f & Hf & Hbody).
  rewrite run_cursor_view in Hbody.
  assert (Hbs : build_sort q = Some ("price", 1%Z)).
  { unfold build_sort. rewrite Hsort. reflexivity. }
  rewrite Hbs in Hbody.
  exists f. eexists. split; [exact Hf|]. split; [exact Hbody|].
  split; [apply Permutation_sort_docs|].
  exact (Sorted_sort_docs Htotal ("price", 1%Z) _).
Qed.

Lemma number_total_leb_total (x y : number) :
  number_total_leb x y = true \/ number_total_leb y x = true.
Proof.
  destruct x as [| | |x], y as [| | |y]; simpl; auto.
  destruct (Qlt_le_dec x y) as [Hlt|Hle].
  - left. apply Qle_bool_iff. apply Qlt_le_weak. exact Hlt.
  - right. apply Qle_bool_iff. exact Hle.
Qed.

Lemma ranked_leb_total (a b : value) :
  ranked_leb a b = true \/ ranked_leb b a = true.
Proof.
  destruct a, b; simpl; auto. apply number_total_leb_total.
Qed.

Lemma list_sorted_by_price_witness :
  let q := {| query_category := None; query_minPrice := None;
              query_sort := Some "price"; query_fields := Some "name" |} in
  let f := {| filter_category := None; filter_price_gte := None |} in
  let shop := {| docs := [Sample.ink; Sample.pen]; history := [] |} in
  let res := json (VArray [VObject [("name", VString "Pen")];
                           VObject [("name", VString "Ink")]]) in
  let coll' := called (CallFind (@list_cursor ranked_platform q f)) shop in
  (forall a b, @bson_leb ranked_platform a b = true
               \/ @bson_leb ranked_platform b a = true) /\
  query_sort q = Some "price" /\
  @app ranked_platform Sample.env (GET_products q) (Some shop)
  = (res, Some coll') /\
  status res = 200 /\
  exists f ds,
    @build_filter ranked_platform q = inr f /\
    body res = VArray (map VObject (map (@view ranked_platform q) ds)) /\
    Permutation ds (filter (matches f) (docs shop)) /\
    Sorted (fun a b => @bson_leb ranked_platform (get "price" a)
                         (get "price" b) = true) ds.
Proof.
  intros q f shop res coll'.
  split; [exact ranked_leb_total|]. split; [reflexivity|].
  split; [reflexivity|]. split; [reflexivity|].
  exact (list_sorted_by_price ranked_platform Sample.env q shop res coll'
           ranked_leb_total eq_refl eq_refl eq_refl).
Defined.

(** X13. The list route passes over an empty [category], an empty
    [fields] and a [sort] other than ["price"]: the request is answered,
    and recorded by the store, as the request without them. *)
Theorem list_ignores (P : Platform) (env : Env) (q : Query)
  (pc : option Collection) :
  app env (GET_products q) pc = app env (GET_products (effective q)) pc.
Proof.
  simpl. destruct pc as [coll|]; [|reflexivity]. simpl.
  assert (Hf : build_filter (effective q) = build_filter q).
  { unfold build_filter, effective. simpl.
    destruct (query_category q) as [c|]; [|reflexivity].
    destruct (nonempty c) eqn:Hc; [rewrite Hc|]; reflexivity. }
  assert (Hp : build_projection (effective q) = build_projection q).
  { unfold build_projection, effective. simpl.
    destruct (query_fields q) as [fs|]; [|reflexivity].
    destruct (nonempty fs) eqn:Hfs; [rewrite Hfs|]; reflexivity. }
  assert (Hs : build_sort (effective q) = build_sort q).
  { unfold build_sort, effective. simpl.
    destruct (query_sort q) as [s|]; [|reflexivity].
    destruct (String.eqb s "price") eqn:Hs; [rewrite Hs|]; reflexivity. }
  unfold get_products. rewrite Hf, Hp, Hs. reflexivity.
Qed.

(** X14. With the collection set, a [category] that is not empty and no
    [minPrice]: a list request answers 200, every returned object is a
    stored record whose category is that string, or an array that holds
    it, and every stored record whose category is that string is
    returned, through the projection. *)
Theorem list_by_category (P : Platform) (env : Env) (q : Query) (c : string)
  (coll : Collection) :
  query_category q = Some c ->
  c <> "" ->
  query_minPrice q = None ->
  exists rs coll',
    app env (GET_products q) (Some coll)
    = (json (VArray (map VObject rs)), Some coll') /\
    (forall r, In r rs ->
       exists d, In d (docs coll) /\ r = view q d /\
         eq_match c (get "category" d) = true /\
         (forall s, get "category" d = VString s -> s = c)) /\
    (forall d, In d (docs coll) -> get "category" d = VString c ->
       In (view q d) rs).
Proof.
  intros Hc Hne Hmin. simpl.
  assert (Hf : build_filter q
               = inr {| filter_category := Some c;
                        filter_price_gte := None |}).
  { unfold build_filter. rewrite Hc, Hmin.
    destruct c; [contradiction|reflexivity]. }
  rewrite (get_products_runs _ _ _ coll Hf), run_cursor_view.
  eexists. eexists. split; [reflexivity|].
  set (f := {| filter_category := Some c; filter_price_gte := None |}).
  assert (Hin : forall d,
             In d (match build_sort q with
                   | Some s => sort_docs s (filter (matches f) (docs coll))
                   | None => filter (matches f) (docs coll)
                   end)
             <-> In d (docs coll) /\ eq_match c (get "category" d) = true).
  { intros d.
    assert (Hm : matches f d = eq_match c (get "category" d)).
    { unfold matches, f. simpl. apply andb_true_r. }
    rewrite <- Hm, <- filter_In.
    destruct (build_sort q); [apply In_sort_docs|tauto]. }
  split.
  - intros r Hr. apply in_map_iff in Hr. destruct Hr as (d & <- & Hd).
    apply Hin in Hd. destruct Hd as [Hd Hm].
    exists d. repeat split; auto.
    intros s Hs. rewrite Hs in Hm. simpl in Hm.
    apply String.eqb_eq in Hm. congruence.
  - intros d Hd Hcat. apply in_map. apply Hin. split; [exact Hd|].
    rewrite Hcat. simpl. apply String.eqb_refl.
Qed.

Lemma list_by_category_witness :
  let q := {| query_category := Some "Stationery"; query_minPrice := None;
              query_sort := None; query_fields := None |} in
  query_category q = Some "Stationery" /\
  "Stationery" <> "" /\
  query_minPrice q = None /\
  exists rs coll',
    app Sample.env (GET_products q) (Some Sample.shop)
    = (json (VArray (map VObject rs)), Some coll') /\
    (forall r, In r rs ->
       exists d, In d (docs Sample.shop) /\ r = view q d /\
         eq_match "Stationery" (get "category" d) = true /\
         (forall s, get "category" d = VString s -> s = "Stationery")) /\
    (forall d, In d (docs Sample.shop) ->
       get "category" d = VString "Stationery" -> In (view q d) rs).
Proof.
  intros q.
  assert (Hne : "Stationery" <> "") by discriminate.
  split; [reflexivity|]. split; [exact Hne|]. split; [reflexivity|].
  exact (list_by_category Sample.platform Sample.env q "Stationery"
           Sample.shop eq_refl Hne eq_refl).
Defined.

(* ================================================================= *)
(** ** The names that [fields] selects *)

Lemma trimStart_clean (s : string) : starts_clean (trimStart s) = true.
Proof.
  induction s as [|c s IH]; simpl; [reflexivity|].
  destruct (is_space c) eqn:Hc; [exact IH|]. simpl. rewrite Hc. reflexivity.
Qed.

Lemma trimStart_of_clean (s : string) :
  starts_clean s = true -> trimStart s = s.
Proof.
  destruct s as [|c s]; simpl; [reflexivity|].
  destruct (is_space c); [discriminate|reflexivity].
Qed.

Lemma trimEnd_clean (s : string) :
  starts_clean s = true -> starts_clean (trimEnd s) = true.
Proof.
  destruct s as [|c s]; simpl; [reflexivity|]. intros Hc.
  destruct (trimEnd s); simpl.
  - destruct (is_space c) eqn:E; [discriminate|]. simpl. rewrite E.
    reflexivity.
  - exact Hc.
Qed.

Lemma trimEnd_idempotent (s : string) : trimEnd (trimEnd s) = trimEnd s.
Proof.
  induction s as [|c s IH]; simpl; [reflexivity|].
  destruct (trimEnd s) as [|c' s'] eqn:Hs.
  - destruct (is_space c) eqn:Hc; simpl; [reflexivity|].
    rewrite Hc. reflexivity.
  - simpl. simpl in IH. rewrite IH. reflexivity.
Qed.

Lemma trim_idempotent (s : string) : trim (trim s) = trim s.
Proof.
  unfold trim.
  rewrite (trimStart_of_clean (trimEnd (trimStart s))).
  - apply trimEnd_idempotent.
  - apply trimEnd_clean. apply trimStart_clean.
Qed.

(** X15. Every name that [fields] selects is not empty and has no white
    space around it: trimming it again changes nothing. *)
Theorem selected_fields_trimmed (P : Platform) (fields f : string) :
  In f (selectedFields fields) ->
  f <> "" /\ trim f = f.
Proof.
  unfold selectedFields. intros Hf.
  apply filter_In in Hf. destruct Hf as [Hf Hne].
  apply in_map_iff in Hf. destruct Hf as (piece & <- & _).
  split.
  - intros Heq. unfold nonempty in Hne. rewrite Heq in Hne. discriminate.
  - apply trim_idempotent.
Qed.

Lemma selected_fields_trimmed_witness :
  In "price" (selectedFields " name ,, price ,") /\
  "price" <> "" /\ trim "price" = "price".
Proof.
  assert (Hin : In "price" (selectedFields " name ,, price ,"))
    by (simpl; auto).
  split; [exact Hin|].
  exact (selected_fields_trimmed Sample.platform " name ,, price ," "price"
           Hin).
Defined.

(* ================================================================= *)
(** ** Create, then delete *)

Lemma delete_first_last (oid : N) (l : list object) (d : object) :
  existsb (id_is oid) l = false ->
  id_is oid d = true ->
  delete_first oid (l ++ [d]) = (1, l).
Proof.
  intros Hl Hd. induction l as [|e l IH]; simpl.
  - rewrite Hd. reflexivity.
  - simpl in Hl. apply orb_false_iff in Hl. destruct Hl as [He Hl].
    rewrite He, (IH Hl). reflexivity.
Qed.

(** X16. With the collection set: after a create request that answers 201
    under an identifier that no stored record carried, a delete with a
    string that [new ObjectId] reads as that identifier answers 200, and
    the records are again those from before the create. *)
Theorem create_then_delete (P : Platform) (env env' : Env) (b : object)
  (id : string) (coll : Collection) :
  truthy (get "name" b) && truthy (get "category" b)
  && typeof_number (get "price" b) = true ->
  existsb (id_is (fresh_id env)) (docs coll) = false ->
  ObjectId_isValid id = true ->
  ObjectId_new id = fresh_id env ->
  exists coll',
    serve [(env, POST_products b); (env', DELETE_product id)] (Some coll)
    = ([status_json 201 (VObject (created env b));
        json (VObject [("deleted", VBool true); ("id", VString id)])],
       Some coll') /\
    docs coll' = docs coll.
Proof.
  intros Hvalid Hfresh Hid Hnew. simpl.
  unfold post_products, insertOne.
  apply andb_true_iff in Hvalid. destruct Hvalid as [Hvalid Hp].
  apply andb_true_iff in Hvalid. destruct Hvalid as [Hn Hc].
  rewrite Hn, Hc, Hp, Hfresh. simpl.
  unfold delete_product, deleteOne. rewrite Hid, Hnew. simpl.
  rewrite (delete_first_last (fresh_id env) (docs coll) _ Hfresh).
  - simpl. eexists. split; reflexivity.
  - unfold id_is. simpl. apply N.eqb_refl.
Qed.

Lemma create_then_delete_witness :
  let b := [("name", VString "Cap"); ("category", VString "Stationery");
            ("price", VNumber (Finite (1 # 4)))] in
  let id := "000000000000000000001000" in
  truthy (get "name" b) && truthy (get "category" b)
  && typeof_number (get "price" b) = true /\
  existsb (id_is (fresh_id Sample.env)) (docs Sample.shop) = false /\
  ObjectId_isValid id = true /\
  ObjectId_new id = fresh_id Sample.env /\
  exists coll',
    serve [(Sample.env, POST_products b); (Sample.env, DELETE_product id)]
      (Some Sample.shop)
    = ([status_json 201 (VObject (created Sample.env b));
        json (VObject [("deleted", VBool true); ("id", VString id)])],
       Some coll') /\
    docs coll' = docs Sample.shop.
Proof.
  intros b id. repeat (split; [reflexivity|]).
  exact (create_then_delete Sample.platform Sample.env Sample.env b id
           Sample.shop eq_refl eq_refl eq_refl eq_refl).
Defined.
